(** * BIGREST: the BIG-IP task and transaction methods of [bigrest/bigip.py]

    A shallow embedding of class [BIGIP]: the session object is an explicit
    state, every method is a computation in a state-and-exception monad, and
    the device is a sequence of HTTP responses.  The log of the session
    records every request sent (with the headers it carried), every
    [time.sleep] and every [print], in program order. *)

From Stdlib Require Import ZArith String List Bool Lia.
From stdpp Require Import base option gmap strings list fin_maps pretty.

Local Open Scope Z_scope.
Local Open Scope string_scope.
Local Open Scope list_scope.

(** ** JSON values, as [response.json()] returns them *)

Set Warnings "-register-all".

Inductive json : Type :=
| JNull
| JBool (b : bool)
| JNum (n : Z)
| JStr (s : string)
| JArr (l : list json)
| JObj (m : gmap string json).

(** [v == "literal"] for a decoded JSON value [v]: only a [str] equals a
    [str]. *)
Definition json_eq_str (v : json) (s : string) : bool :=
  match v with
  | JStr s' => String.eqb s' s
  | _ => false
  end.

(** [needle in hay] on Python strings. *)
Fixpoint contains (needle hay : string) : bool :=
  String.prefix needle hay ||
  match hay with
  | EmptyString => false
  | String _ rest => contains needle rest
  end.

(** [x in [a, b, ...]] on status codes. *)
Definition py_in (x : Z) (l : list Z) : bool := existsb (Z.eqb x) l.

(** ** Responses, requests and the session log *)

Record Response : Type := mkResponse {
  status_code : Z;
  text : string;
  (** [None]: the body is not JSON and [response.json()] raises. *)
  json_body : option json;
}.

Inductive Method : Type := GET | POST | PUT | PATCH.

Record Request : Type := mkRequest {
  req_method : Method;
  req_url : string;
  req_headers : gmap string string;
  req_json : option json;
  req_timeout : Z;
}.

Inductive Event : Type :=
| Http (r : Request)
| Sleep (seconds : Z)
| Print (line : string).

Definition requests (l : list Event) : list Request :=
  omap (fun e => match e with Http r => Some r | _ => None end) l.

Definition sleeps (l : list Event) : list Z :=
  omap (fun e => match e with Sleep n => Some n | _ => None end) l.

(** ** Exceptions *)

Inductive Exn : Type :=
| RESTAPIError (response : Response) (debug : option string)
| KeyError (key : string)
| TypeError
| ValueError
| OverflowError
| JSONDecodeError
| OtherError (name : string).

Record RESTObject : Type := mkRESTObject { properties : json }.

(** ** The session object *)

Record BIGIP : Type := mkBIGIP {
  request_token : bool;
  refresh_token : option string;
  debug : option string;
  timeout : Z;
  _transaction : json;
  (** [self.session.headers] *)
  headers : gmap string string;
  log : list Event;
}.

Definition set_log (l : list Event) (s : BIGIP) : BIGIP :=
  mkBIGIP (request_token s) (refresh_token s) (debug s) (timeout s)
          (_transaction s) (headers s) l.

Definition set_headers (h : gmap string string) (s : BIGIP) : BIGIP :=
  mkBIGIP (request_token s) (refresh_token s) (debug s) (timeout s)
          (_transaction s) h (log s).

Definition set_transaction (t : json) (s : BIGIP) : BIGIP :=
  mkBIGIP (request_token s) (refresh_token s) (debug s) (timeout s)
          t (headers s) (log s).

(** ** The monad: session state, exceptions, and fuel for [while True] *)

Inductive Outcome (A : Type) : Type :=
| Returns (a : A)
| Raises (e : Exn)
| OutOfFuel.
Arguments Returns {A} a.
Arguments Raises {A} e.
Arguments OutOfFuel {A}.

Definition M (A : Type) : Type := BIGIP -> Outcome A * BIGIP.

Definition ret {A} (a : A) : M A := fun s => (Returns a, s).
Definition raise {A} (e : Exn) : M A := fun s => (Raises e, s).
Definition bind {A B} (m : M A) (k : A -> M B) : M B :=
  fun s =>
    match m s with
    | (Returns a, s') => k a s'
    | (Raises e, s') => (Raises e, s')
    | (OutOfFuel, s') => (OutOfFuel, s')
    end.

Declare Scope py_scope.
Delimit Scope py_scope with py.
Notation "'let*' x := m 'in' k" := (bind m (fun x => k))
  (at level 10, x name, m at level 100, k at level 200, only parsing)
  : py_scope.
Notation "m ;;; k" := (bind m (fun _ => k))
  (at level 100, k at level 200, right associativity, only parsing) : py_scope.
Local Open Scope py_scope.

Definition get_self : M BIGIP := fun s => (Returns s, s).
Definition emit (e : Event) : M unit :=
  fun s => (Returns tt, set_log (log s ++ [e]) s).

(** ** Collaborators that live outside [bigip.py] *)

Record Env : Type := mkEnv {
  (** the n-th request of the session is answered by [server n] *)
  server : nat -> Response;
  (** [BIG._check_token] *)
  _check_token : M unit;
  (** [BIG._get_url] *)
  _get_url : string -> string;
  (** [BIG._get_path] *)
  _get_path : RESTObject -> Exn + string;
  (** [repr] of a value that is not a [str] *)
  py_repr : json -> string;
}.

(** [time.sleep] takes its [int] argument as a 64-bit count of
    nanoseconds: seconds beyond [SLEEP_MAX] either way do not fit and raise
    [OverflowError]; a negative length that fits raises [ValueError]. *)
Definition SLEEP_MAX : Z := 9223372036.

Definition sleep_error (interval : Z) : option Exn :=
  if (interval <? - SLEEP_MAX)%Z || (SLEEP_MAX <? interval)%Z
  then Some OverflowError
  else if (interval <? 0)%Z then Some ValueError
  else None.

Definition COORD : string := "X-F5-REST-Coordination-Id".
Definition IMPORT_POLICY : string :=
  "tm:asm:tasks:import-policy:import-policy-taskstate".

Section Methods.
Context (E : Env).

(** [f"{v}"] *)
Definition py_str (v : json) : string :=
  match v with
  | JStr s => s
  | _ => py_repr E v
  end.

(** [self.session.<method>(url, json=body, timeout=self.timeout)] *)
Definition session_request (m : Method) (url : string)
    (body : option json) : M Response :=
  fun s =>
    let rq := mkRequest m url (headers s) body (timeout s) in
    (Returns (server E (length (requests (log s)))),
     set_log (log s ++ [Http rq]) s).

(** [response.json()] *)
Definition response_json (r : Response) : M json :=
  match json_body r with
  | Some j => ret j
  | None => raise JSONDecodeError
  end.

(** [v[key]] *)
Definition subscript (v : json) (key : string) : M json :=
  match v with
  | JObj m =>
      match m !! key with
      | Some x => ret x
      | None => raise (KeyError key)
      end
  | _ => raise TypeError
  end.

(** [response.json()[key]] *)
Definition json_field (r : Response) (key : string) : M json :=
  let* j := response_json r in subscript j key.

(** [if self.request_token or self.refresh_token is not None:
       self._check_token()] *)
Definition check_auth : M unit :=
  let* self := get_self in
  if request_token self || bool_decide (refresh_token self <> None)
  then _check_token E
  else ret tt.

(** [time.sleep(interval)] *)
Definition sleep (interval : Z) : M unit :=
  match sleep_error interval with
  | Some e => raise e
  | None => emit (Sleep interval)
  end.
Definition print (line : string) : M unit := emit (Print line).

Definition lift_path (obj : RESTObject) : M string :=
  match _get_path E obj with
  | inl e => raise e
  | inr p => ret p
  end.

Definition task_start (path : string) (data : gmap string json)
    : M RESTObject :=
  check_auth ;;;
  let* self := get_self in
  let url := _get_url E path in
  let* response := session_request POST url (Some (JObj data)) in
  if negb (py_in (status_code response) [200; 201])
  then raise (RESTAPIError response (debug self))
  else
    let* kind := json_field response "kind" in
    let* id_data :=
      (if json_eq_str kind IMPORT_POLICY
       then let* id_ := json_field response "id" in
            ret (id_, (∅ : gmap string json))
       else let* id_ := json_field response "_taskId" in
            ret (id_, {[ "_taskState" := JStr "VALIDATING" ]})) in
    let id_ := fst id_data in
    let data := snd id_data in
    let url := url +:+ "/" +:+ py_str id_ in
    (if bool_decide (data <> ∅)
     then let* response_put := session_request PUT url (Some (JObj data)) in
          if py_in (status_code response_put) [200; 202]
          then let* j := response_json response_put in print (py_str j)
          else ret tt
     else ret tt) ;;;
    let* response_get := session_request GET url None in
    if negb (py_in (status_code response_get) [200; 202])
    then raise (RESTAPIError response_get (debug self))
    else let* j := response_json response_get in ret (mkRESTObject j).

(** The body of [while True:] in [task_wait]; [fuel] bounds the number of
    iterations, as the loop itself has no bound. *)
Fixpoint task_wait_loop (fuel : nat) (url : string) (interval : Z)
    : M RESTObject :=
  match fuel with
  | O => fun s => (OutOfFuel, s)
  | S fuel' =>
      check_auth ;;;
      let* self := get_self in
      let* response := session_request GET url None in
      (if (status_code response =? 500)%Z
          && contains "AsyncContext timeout" (text response)
       then print ("AsyncContext timeout will wait "
                   +:+ py_str (JNum interval) +:+ " seconds") ;;;
            sleep interval
       else ret tt) ;;;
      if negb (status_code response =? 200)%Z
      then raise (RESTAPIError response (debug self))
      else
        let* kind := json_field response "kind" in
        let* status :=
          (if json_eq_str kind IMPORT_POLICY
           then json_field response "state"
           else json_field response "_taskState") in
        if json_eq_str status "FAILURE"
        then raise (RESTAPIError response (debug self))
        else if json_eq_str status "COMPLETED"
        then let* j := response_json response in ret (mkRESTObject j)
        else sleep interval ;;; task_wait_loop fuel' url interval
  end.

Definition task_wait (fuel : nat) (obj : RESTObject) (interval : Z)
    : M RESTObject :=
  check_auth ;;;
  let* path := lift_path obj in
  let url := _get_url E path in
  task_wait_loop fuel url interval.

Definition task_completed (obj : RESTObject) : M bool :=
  check_auth ;;;
  let* self := get_self in
  let* path := lift_path obj in
  let url := _get_url E path in
  let* response := session_request GET url None in
  if negb (status_code response =? 200)%Z
  then raise (RESTAPIError response (debug self))
  else
    let* kind := json_field response "kind" in
    let* status :=
      (if json_eq_str kind IMPORT_POLICY
       then json_field response "state"
       else json_field response "_taskState") in
    if json_eq_str status "FAILURE"
    then raise (RESTAPIError response (debug self))
    else if json_eq_str status "COMPLETED"
    then ret true
    else ret false.

(** ["commandResult" in v]: key membership on a [dict], element
    membership on a [list], substring on a [str], [TypeError] on the
    rest. *)
Definition json_contains (key : string) (v : json) : M bool :=
  match v with
  | JObj m => ret (bool_decide (is_Some (m !! key)))
  | JArr l => ret (existsb (fun x => json_eq_str x key) l)
  | JStr s => ret (contains key s)
  | _ => raise TypeError
  end.

Definition task_result (obj : RESTObject) : M json :=
  check_auth ;;;
  let* self := get_self in
  let* path := lift_path obj in
  let url := _get_url E path in
  let url := url +:+ "/result" in
  let* response := session_request GET url None in
  if negb (status_code response =? 200)%Z
  then raise (RESTAPIError response (debug self))
  else
    let* j := response_json response in
    let* present := json_contains "commandResult" j in
    if present
    then json_field response "commandResult"
    else ret (JStr "").

Definition exist (path : string) : M bool :=
  check_auth ;;;
  let* self := get_self in
  let url := _get_url E path in
  let* response := session_request GET url None in
  if (status_code response =? 200)%Z then ret true
  else if (status_code response =? 404)%Z then ret false
  else raise (RESTAPIError response (debug self)).

(** [self.session.headers.update({key: value})] *)
Definition headers_update (key value : string) : M unit :=
  fun s => (Returns tt, set_headers (<[key := value]> (headers s)) s).

(** [self.session.headers.pop(key)] *)
Definition headers_pop (key : string) : M string :=
  fun s =>
    match headers s !! key with
    | Some v => (Returns v, set_headers (delete key (headers s)) s)
    | None => (Raises (KeyError key), s)
    end.

Definition transaction_create : M RESTObject :=
  check_auth ;;;
  let* self := get_self in
  let url := _get_url E "/mgmt/tm/transaction" in
  let* response := session_request POST url (Some (JObj ∅)) in
  if negb (status_code response =? 200)%Z
  then raise (RESTAPIError response (debug self))
  else
    let* transId := json_field response "transId" in
    (fun s => (Returns tt, set_transaction transId s)) ;;;
    let* self := get_self in
    headers_update COORD (py_str (_transaction self)) ;;;
    let* j := response_json response in
    ret (mkRESTObject j).

Definition __enter__ : M RESTObject := transaction_create.

Definition transaction_commit : M RESTObject :=
  check_auth ;;;
  let* self := get_self in
  let url :=
    _get_url E ("/mgmt/tm/transaction/" +:+ py_str (_transaction self)) in
  headers_pop COORD ;;;
  let data : gmap string json := <["state" := JStr "VALIDATING"]> ∅ in
  let* response := session_request PATCH url (Some (JObj data)) in
  if negb (status_code response =? 200)%Z
  then raise (RESTAPIError response (debug self))
  else let* j := response_json response in ret (mkRESTObject j).

(** [__exit__(self, type, value, traceback)]: the three arguments are
    [None] on a normal exit and describe the exception otherwise; the
    method returns [None]. *)
Definition __exit__ (exc : option Exn) : M unit :=
  transaction_commit ;;; ret tt.

Definition transaction_validate : M RESTObject :=
  check_auth ;;;
  let* self := get_self in
  let url :=
    _get_url E ("/mgmt/tm/transaction/" +:+ py_str (_transaction self)) in
  headers_pop COORD ;;;
  let data : gmap string json :=
    <["state" := JStr "VALIDATING"]> (<["validateOnly" := JBool true]> ∅) in
  let* response := session_request PATCH url (Some (JObj data)) in
  (if negb (status_code response =? 200)%Z
   then raise (RESTAPIError response (debug self))
   else headers_update COORD (py_str (_transaction self))) ;;;
  let* j := response_json response in
  ret (mkRESTObject j).

(** [with bigip as t: body(t)], by the language's rule for the [with]
    statement: [__enter__] runs first and its value is bound; [__exit__]
    runs when the body finishes, whether it returned or raised; as
    [__exit__] returns [None], an exception of the body is raised again
    after it. *)
Definition with_statement {A} (body : RESTObject -> M A) : M A :=
  fun s =>
    match __enter__ s with
    | (Returns t, s1) =>
        match body t s1 with
        | (Returns a, s2) =>
            match __exit__ None s2 with
            | (Returns _, s3) => (Returns a, s3)
            | (Raises e', s3) => (Raises e', s3)
            | (OutOfFuel, s3) => (OutOfFuel, s3)
            end
        | (Raises e, s2) =>
            match __exit__ (Some e) s2 with
            | (Returns _, s3) => (Raises e, s3)
            | (Raises e', s3) => (Raises e', s3)
            | (OutOfFuel, s3) => (OutOfFuel, s3)
            end
        | (OutOfFuel, s2) => (OutOfFuel, s2)
        end
    | (Raises e, s1) => (Raises e, s1)
    | (OutOfFuel, s1) => (OutOfFuel, s1)
    end.

End Methods.

(** ** A concrete device, used to run the methods *)

Module Demo.

Definition repr (v : json) : string :=
  match v with
  | JNull => "None"
  | JBool true => "True"
  | JBool false => "False"
  | JNum n => pretty n
  | _ => "<object>"
  end.

Definition get_path (obj : RESTObject) : Exn + string :=
  match properties obj with
  | JObj m =>
      match m !! "selfLink" with
      | Some (JStr p) => inr p
      | Some _ => inl TypeError
      | None => inl (KeyError "selfLink")
      end
  | _ => inl TypeError
  end.

(** A guard that renews the authentication header and nothing else. *)
Definition check_token : M unit :=
  fun s => (Returns tt, set_headers (<["X-F5-Auth-Token" := "T0"]> (headers s)) s).

Definition env (srv : nat -> Response) : Env :=
  mkEnv srv check_token (fun p => "https://bigip" +:+ p) get_path repr.

Definition fresh (tok : bool) : BIGIP :=
  mkBIGIP tok None None 10 JNull ∅ [].

Definition obj (kvs : list (string * json)) : json :=
  JObj (list_to_map kvs).

Definition reply (st : Z) (kvs : list (string * json)) : Response :=
  mkResponse st "" (Some (obj kvs)).

Definition script (l : list Response) (n : nat) : Response :=
  nth n l (mkResponse 599 "" None).

Definition task42 : RESTObject :=
  mkRESTObject (obj [("selfLink", JStr "/mgmt/tm/task/42")]).

(** Bodies of the two schemas. *)
Definition standard_body (st : string) : list (string * json) :=
  [("kind", JStr "tm:task:cli-script:run");
   ("_taskId", JStr "7"); ("_taskState", JStr st)].

Definition policy_body (st : string) : list (string * json) :=
  [("kind", JStr IMPORT_POLICY); ("id", JStr "42"); ("state", JStr st)].

(** A STANDARD body without [kind]. *)
Definition bare_body (st : string) : list (string * json) :=
  [("_taskId", JStr "7"); ("_taskState", JStr st)].

Definition async_timeout : Response :=
  mkResponse 500 "java.util.concurrent.TimeoutException: AsyncContext timeout"
             None.

(** A body of the [with] statement that fails. *)
Definition failing_body (t : RESTObject) : M unit :=
  raise (OtherError "ValueError").

Definition transaction_script : nat -> Response :=
  script [reply 200 [("transId", JNum 1389812351)];
          reply 200 [("state", JStr "COMPLETED")]].

(** A body of the [with] statement that commits by itself. *)
Definition committing_body (E : Env) (t : RESTObject) : M unit :=
  bind (transaction_commit E) (fun _ => ret tt).


End Demo.

(** ** Vocabulary of the statements *)

(** What the authentication guard may not touch: the log, the debug sink,
    the transaction id and the coordination header. *)
Definition same_core (s s1 : BIGIP) : Prop :=
  log s1 = log s /\ debug s1 = debug s /\
  _transaction s1 = _transaction s /\
  headers s1 !! COORD = headers s !! COORD.

(** The guard, whenever the session calls it, returns normally and leaves
    the core of the session alone (it may renew tokens and other headers). *)
Definition guard_transparent (E : Env) : Prop :=
  forall s,
    request_token s || bool_decide (refresh_token s <> None) = true ->
    exists s1, _check_token E s = (Returns tt, s1) /\ same_core s s1.

(** The response to the [k]-th request sent from state [s] on. *)
Definition nth_response (E : Env) (s : BIGIP) (k : nat) : Response :=
  server E (length (requests (log s)) + k).

(** The request [session_request] builds in state [s]. *)
Definition request_of (s : BIGIP) (m : Method) (url : string)
    (body : option json) : Request :=
  mkRequest m url (headers s) body (timeout s).

(** What [task_start] makes of the response to its final GET. *)
Definition get_outcome (d : option string) (r : Response)
    : Outcome RESTObject :=
  if py_in (status_code r) [200; 202]
  then match json_body r with
       | Some j => Returns (mkRESTObject j)
       | None => Raises JSONDecodeError
       end
  else Raises (RESTAPIError r d).

(** What [task_start] prints of the response to the finalize PUT. *)
Definition put_echo (E : Env) (r : Response) : list Event :=
  if py_in (status_code r) [200; 202]
  then match json_body r with
       | Some j => [Print (py_str E j)]
       | None => []
       end
  else [].

(** The finalize payload of the STANDARD schema. *)
Definition VALIDATING_payload : gmap string json :=
  {[ "_taskState" := JStr "VALIDATING" ]}.

(** A response to the creating POST that [task_start] can read: a JSON
    object with [kind] and the id field of its schema. *)
Definition created_well_formed (r : Response) : Prop :=
  exists m kind id_,
    json_body r = Some (JObj m) /\
    m !! "kind" = Some kind /\
    if json_eq_str kind IMPORT_POLICY
    then m !! "id" = Some id_
    else m !! "_taskId" = Some id_.

(** Whether the response to the creating POST is of the POLICY_IMPORT
    schema. *)
Definition is_policy_import (r : Response) : bool :=
  match json_body r with
  | Some (JObj m) =>
      match m !! "kind" with
      | Some kind => json_eq_str kind IMPORT_POLICY
      | None => false
      end
  | _ => false
  end.

(** Whether the finalize PUT stops [task_start]: the schema is STANDARD
    and the PUT is answered 200 or 202 with a body that is not JSON, which
    the code decodes to print it. *)
Definition put_blocks (E : Env) (s : BIGIP) : bool :=
  negb (is_policy_import (nth_response E s 0)) &&
  py_in (status_code (nth_response E s 1)) [200; 202] &&
  match json_body (nth_response E s 1) with
  | Some _ => false
  | None => true
  end.

(** The response to the final GET of [task_start]: the second of the call
    for POLICY_IMPORT, the third (after the PUT) for STANDARD. *)
Definition start_get_response (E : Env) (s : BIGIP) : Response :=
  nth_response E s (if is_policy_import (nth_response E s 0) then 1 else 2).

(** The state of a task as the spec extracts it: POLICY_IMPORT bodies carry
    it in [state], STANDARD bodies in [_taskState]. *)
Definition spec_task_state (r : Response) : option json :=
  match json_body r with
  | Some (JObj m) =>
      match m !! "kind" with
      | Some kind =>
          if json_eq_str kind IMPORT_POLICY
          then m !! "state"
          else m !! "_taskState"
      | None => None
      end
  | _ => None
  end.

(** The exception the extraction raises when there is no such state. *)
Definition state_error (r : Response) : Exn :=
  match json_body r with
  | None => JSONDecodeError
  | Some (JObj m) =>
      match m !! "kind" with
      | None => KeyError "kind"
      | Some kind =>
          if json_eq_str kind IMPORT_POLICY
          then KeyError "state"
          else KeyError "_taskState"
      end
  | Some _ => TypeError
  end.

(** The coordination header of the session, if set. *)
Definition coordination (s : BIGIP) : option string := headers s !! COORD.

(** The URL of the transaction the session tracks. *)
Definition transaction_url (E : Env) (s : BIGIP) : string :=
  _get_url E ("/mgmt/tm/transaction/" +:+ py_str E (_transaction s)).

(** The payloads of the two control calls. *)
Definition commit_payload : gmap string json :=
  {[ "state" := JStr "VALIDATING" ]}.
Definition validate_payload : gmap string json :=
  <["state" := JStr "VALIDATING"]> {[ "validateOnly" := JBool true ]}.

(** A control call (validate or commit) as sent: a PATCH of [payload] on
    the transaction URL that does not carry the coordination header. *)
Definition is_control_call (url : string) (payload : gmap string json)
    (r : Request) : Prop :=
  req_method r = PATCH /\ req_url r = url /\
  req_json r = Some (JObj payload) /\ req_headers r !! COORD = None.

(** What a control call returns on status 200. *)
Definition decoded (r : Response) : Outcome RESTObject :=
  match json_body r with
  | Some j => Returns (mkRESTObject j)
  | None => Raises JSONDecodeError
  end.

(** The session has released its transaction: the last request sent is
    the commit PATCH and the coordination header is gone. *)
Definition released (s : BIGIP) : Prop :=
  coordination s = None /\
  exists rq, last (requests (log s)) = Some rq /\
             req_method rq = PATCH /\
             req_json rq = Some (JObj commit_payload).

(** The condition [task_wait] announces it will wait on. *)
Definition is_transient (r : Response) : bool :=
  (status_code r =? 500)%Z && contains "AsyncContext timeout" (text r).

(** A request that polls the task at [url]. *)
Definition is_poll (url : string) (r : Request) : Prop :=
  req_method r = GET /\ req_url r = url /\ req_json r = None.

(** The intervals [time.sleep] accepts. *)
Definition sleep_accepts (interval : Z) : Prop :=
  (0 <= interval <= SLEEP_MAX)%Z.

(** One iteration of the loop of [task_wait], from the state [s1] the guard
    leaves, on response [r]; [continue] is the rest of the loop. *)
Definition wait_iteration (E : Env) (url : string) (interval : Z)
    (r : Response) (s s1 : BIGIP) (continue : M RESTObject)
    : Outcome RESTObject * BIGIP :=
  let poll := Http (request_of s1 GET url None) in
  let polled := set_log (log s ++ [poll]) s1 in
  if is_transient r
  then
    let announce :=
      Print ("AsyncContext timeout will wait "
             +:+ py_str E (JNum interval) +:+ " seconds") in
    match sleep_error interval with
    | Some e => (Raises e, set_log (log s ++ [poll; announce]) s1)
    | None => (Raises (RESTAPIError r (debug s)),
               set_log (log s ++ [poll; announce; Sleep interval]) s1)
    end
  else if negb (status_code r =? 200)%Z
  then (Raises (RESTAPIError r (debug s)), polled)
  else
    match spec_task_state r with
    | None => (Raises (state_error r), polled)
    | Some st =>
        if json_eq_str st "FAILURE"
        then (Raises (RESTAPIError r (debug s)), polled)
        else if json_eq_str st "COMPLETED"
        then (match json_body r with
              | Some j => Returns (mkRESTObject j)
              | None => Raises JSONDecodeError
              end, polled)
        else
          match sleep_error interval with
          | Some e => (Raises e, polled)
          | None => continue (set_log (log s ++ [poll; Sleep interval]) s1)
          end
    end.

(** A poll response after which [task_wait] polls again. *)
Definition is_pending (r : Response) : bool :=
  (status_code r =? 200)%Z &&
  match spec_task_state r with
  | Some st => negb (json_eq_str st "FAILURE") && negb (json_eq_str st "COMPLETED")
  | None => false
  end.


(** An event of the log that, if a request, carries coordination header
    [c] (none when [c] is [None]). *)
Definition tagged (c : option string) (e : Event) : Prop :=
  match e with
  | Http rq => req_headers rq !! COORD = c
  | _ => True
  end.

(** [s'] continues [s] without touching the transaction: the debug sink,
    the stored transaction id and the coordination header are those of [s],
    and the log of [s] is extended by events whose requests all carry that
    coordination header. *)
Definition continues (s s' : BIGIP) : Prop :=
  debug s' = debug s /\
  _transaction s' = _transaction s /\
  coordination s' = coordination s /\
  exists evs, log s' = log s ++ evs /\ Forall (tagged (coordination s)) evs.

Definition keeps_transaction {A} (m : M A) : Prop :=
  forall s, continues s (snd (m s)).

(** ** Basic facts *)

Lemma requests_snoc (l : list Event) (r : Request) :
  requests (l ++ [Http r]) = requests l ++ [r].
Proof. unfold requests. by rewrite omap_app. Qed.

Lemma same_core_refl (s : BIGIP) : same_core s s.
Proof. by repeat split. Qed.

Lemma check_auth_ok (E : Env) :
  guard_transparent E ->
  forall s, exists s1, check_auth E s = (Returns tt, s1) /\ same_core s s1.
Proof.
  intros HG s. unfold check_auth, bind, get_self.
  destruct (request_token s || bool_decide (refresh_token s <> None)) eqn:Hb.
  - apply (HG s Hb).
  - exists s. split; [reflexivity | apply same_core_refl].
Qed.

Lemma nth_response_0 (E : Env) (s : BIGIP) :
  server E (length (requests (log s))) = nth_response E s 0.
Proof. unfold nth_response. by rewrite Nat.add_0_r. Qed.

Lemma Demo_guard_transparent (srv : nat -> Response) :
  guard_transparent (Demo.env srv).
Proof.
  intros s _. eexists. split; [reflexivity |].
  repeat split. simpl. by rewrite lookup_insert_ne.
Qed.

(** Runs the guard at the head of the method unfolded in [Hrun] and names
    the state it leaves. *)
Ltac pass_guard HG s s1 Hrun :=
  let Hca := fresh "Hca" in
  let Hlog := fresh "Hlog" in
  let Hdbg := fresh "Hdbg" in
  let Htr := fresh "Htr" in
  let Hhd := fresh "Hhd" in
  destruct (check_auth_ok _ HG s) as (s1 & Hca & Hlog & Hdbg & Htr & Hhd);
  unfold bind at 1 in Hrun; rewrite Hca in Hrun; cbv beta iota in Hrun.

(** Sends the next request of the method unfolded in [Hrun]. *)
Ltac send Hrun :=
  unfold bind at 1 in Hrun; unfold session_request at 1 in Hrun;
  cbv beta iota zeta in Hrun.

(** At a leaf of the method: reads the outcome and final state off [Hrun]
    and settles the conjunct about the single request sent. *)
Ltac leaf Hrun s1 :=
  unfold ret, raise in Hrun; inversion Hrun; subst; clear Hrun;
  (split; [exists (headers s1), (timeout s1); apply requests_snoc |]).

(** ** [exist] *)

(** C8: [exist] answers [True] to status 200, [False] to status 404 and
    raises [RESTAPIError] on every other status; it sends one GET. *)
Theorem exist_by_status (E : Env) (path : string) (s : BIGIP) :
  guard_transparent E ->
  let r := nth_response E s 0 in
  (status_code r = 200 -> fst (exist E path s) = Returns true) /\
  (status_code r = 404 -> fst (exist E path s) = Returns false) /\
  (status_code r <> 200 -> status_code r <> 404 ->
     fst (exist E path s) = Raises (RESTAPIError r (debug s))) /\
  exists hs t,
    requests (log (snd (exist E path s))) =
    requests (log s) ++ [mkRequest GET (_get_url E path) hs None t].
Proof.
  intros HG r. destruct (exist E path s) as [out s'] eqn:Hrun.
  unfold exist in Hrun. pass_guard HG s s1 Hrun.
  unfold bind at 1 in Hrun. unfold get_self at 1 in Hrun. send Hrun.
  rewrite Hlog, nth_response_0, Hdbg in Hrun. fold r in Hrun.
  cbn [fst snd].
  destruct (Z.eqb_spec (status_code r) 200) as [H2 | H2];
    [| destruct (Z.eqb_spec (status_code r) 404) as [H4 | H4]];
    inversion Hrun; subst out s'; clear Hrun;
    (repeat split; [congruence .. |]);
    exists (headers s1), (timeout s1); cbn [log set_log];
    apply requests_snoc.
Qed.

(** ** Extraction of the task state *)

Lemma json_eq_str_inj (v : json) (a b : string) :
  json_eq_str v a = true -> json_eq_str v b = true -> a = b.
Proof.
  destruct v; simpl; try discriminate.
  intros Ha Hb. apply String.eqb_eq in Ha, Hb. congruence.
Qed.

Lemma failure_not_completed (st : json) :
  json_eq_str st "FAILURE" = true -> json_eq_str st "COMPLETED" = false.
Proof.
  intros Hf. destruct (json_eq_str st "COMPLETED") eqn:Hc; [| done].
  pose proof (json_eq_str_inj _ _ _ Hf Hc). discriminate.
Qed.

(** The schema dispatch written out in [task_wait] and [task_completed]
    computes [spec_task_state], and raises [state_error] where that is
    undefined. *)
Lemma extract_state_run {A} (r : Response) (k : json -> M A) (s : BIGIP) :
  bind (json_field r "kind")
       (fun kind =>
          bind (if json_eq_str kind IMPORT_POLICY
                then json_field r "state"
                else json_field r "_taskState") k) s =
  match spec_task_state r with
  | Some st => k st s
  | None => (Raises (state_error r), s)
  end.
Proof.
  unfold spec_task_state, state_error, json_field, response_json, bind.
  destruct (json_body r) as [[| | | | |m] |]; try reflexivity.
  unfold subscript, ret, raise.
  destruct (m !! "kind") as [kind |]; [| reflexivity].
  destruct (json_eq_str kind IMPORT_POLICY).
  - destruct (m !! "state"); reflexivity.
  - destruct (m !! "_taskState"); reflexivity.
Qed.

(** ** [task_completed] *)

(** C7: [task_completed] sends a single GET; it returns [True] exactly when
    the status is 200 and the extracted state is COMPLETED; it raises
    [RESTAPIError] on a status other than 200 and on state FAILURE, so a
    failed task never yields [False]. *)
Theorem task_completed_spec (E : Env) (obj : RESTObject) (path : string)
    (s : BIGIP) :
  guard_transparent E ->
  _get_path E obj = inr path ->
  let r := nth_response E s 0 in
  let out := fst (task_completed E obj s) in
  (exists hs t,
     requests (log (snd (task_completed E obj s))) =
     requests (log s) ++ [mkRequest GET (_get_url E path) hs None t]) /\
  (out = Returns true <->
     status_code r = 200 /\
     exists st, spec_task_state r = Some st /\
                json_eq_str st "COMPLETED" = true) /\
  (status_code r <> 200 -> out = Raises (RESTAPIError r (debug s))) /\
  (status_code r = 200 ->
   forall st, spec_task_state r = Some st ->
              json_eq_str st "FAILURE" = true ->
              out = Raises (RESTAPIError r (debug s)) /\
              out <> Returns false).
Proof.
  intros HG Hpath r out. subst out.
  destruct (task_completed E obj s) as [out s'] eqn:Hrun.
  unfold task_completed in Hrun. pass_guard HG s s1 Hrun.
  unfold bind at 1 in Hrun. unfold get_self at 1 in Hrun.
  unfold bind at 1 in Hrun. unfold lift_path at 1 in Hrun.
  rewrite Hpath in Hrun. unfold ret at 1 in Hrun. send Hrun.
  rewrite Hlog, nth_response_0, Hdbg in Hrun. fold r in Hrun.
  cbn [fst snd].
  destruct (Z.eqb_spec (status_code r) 200) as [H2 | H2]; cbn [negb] in Hrun.
  - rewrite extract_state_run in Hrun.
    destruct (spec_task_state r) as [st |] eqn:Hst.
    + destruct (json_eq_str st "FAILURE") eqn:Hf.
      * leaf Hrun s1.
        split; [split; [done |] |].
        { intros (_ & st' & [= <-] & Hc).
          by rewrite (failure_not_completed st Hf) in Hc. }
        split; [done |]. intros _ st' [= <-] _. by split.
      * destruct (json_eq_str st "COMPLETED") eqn:Hc; leaf Hrun s1.
        -- split; [split; [eauto | done] |].
           split; [done |]. intros _ st' [= <-]. congruence.
        -- split; [split; [done |] |].
           { intros (_ & st' & [= <-] & Hc'). congruence. }
           split; [done |]. intros _ st' [= <-]. congruence.
    + leaf Hrun s1.
      split; [split; [done |] |].
      { intros (_ & st' & [=] & _). }
      split; [done |]. intros _ st' [=].
  - leaf Hrun s1.
    split; [split; [done | intros [? _]; congruence] |].
    split; [done |]. congruence.
Qed.

(** ** [task_result] *)

(** C9: [task_result] GETs [<task url>/result] and raises [RESTAPIError]
    unless the status is 200; on status 200 with a JSON object as body it
    returns the value of [commandResult] as it stands when the field is
    present, and the empty string when it is absent. *)
Theorem task_result_spec (E : Env) (obj : RESTObject) (path : string)
    (s : BIGIP) :
  guard_transparent E ->
  _get_path E obj = inr path ->
  let r := nth_response E s 0 in
  let out := fst (task_result E obj s) in
  (exists hs t,
     requests (log (snd (task_result E obj s))) =
     requests (log s) ++
     [mkRequest GET (_get_url E path +:+ "/result") hs None t]) /\
  (status_code r <> 200 -> out = Raises (RESTAPIError r (debug s))) /\
  (status_code r = 200 ->
   forall m, json_body r = Some (JObj m) ->
     (forall v, m !! "commandResult" = Some v -> out = Returns v) /\
     (m !! "commandResult" = None -> out = Returns (JStr ""))).
Proof.
  intros HG Hpath r out. subst out.
  destruct (task_result E obj s) as [out s'] eqn:Hrun.
  unfold task_result in Hrun. pass_guard HG s s1 Hrun.
  unfold bind at 1 in Hrun. unfold get_self at 1 in Hrun.
  unfold bind at 1 in Hrun. unfold lift_path at 1 in Hrun.
  rewrite Hpath in Hrun. unfold ret at 1 in Hrun. send Hrun.
  rewrite Hlog, nth_response_0, Hdbg in Hrun. fold r in Hrun.
  cbn [fst snd].
  destruct (Z.eqb_spec (status_code r) 200) as [H2 | H2]; cbn [negb] in Hrun.
  - unfold json_field, response_json in Hrun.
    destruct (json_body r) as [j |] eqn:Hj.
    + unfold bind at 1 in Hrun. unfold ret at 1 in Hrun.
      destruct j as [| | | | |m].
      1-5: assert (Hs' : s' = set_log (log s ++
               [Http (mkRequest GET (_get_url E path +:+ "/result")
                                (headers s1) None (timeout s1))]) s1)
             by (unfold bind, json_contains, subscript, raise, ret in Hrun;
                 repeat case_match; congruence).
      1-5: subst s';
           (split; [exists (headers s1), (timeout s1);
                    apply requests_snoc |]);
           split; [done |]; intros _ m' [=].
      unfold bind, json_contains, subscript, ret, raise in Hrun.
      destruct (m !! "commandResult") as [v |] eqn:Hv.
      * rewrite bool_decide_eq_true_2 in Hrun by eauto.
        leaf Hrun s1. split; [done |]. intros _ m' [= <-].
        split; [congruence | congruence].
      * rewrite bool_decide_eq_false_2 in Hrun by (by intros [? ?]).
        leaf Hrun s1. split; [done |]. intros _ m' [= <-].
        split; [congruence | done].
    + unfold bind at 1 in Hrun. leaf Hrun s1.
      split; [done |]. intros _ m' [=].
  - leaf Hrun s1. split; [done |]. congruence.
Qed.

(** ** [task_start] *)

Lemma json_field_run {A} (r : Response) (key : string) (m : gmap string json)
    (v : json) (k : json -> M A) (s : BIGIP) :
  json_body r = Some (JObj m) -> m !! key = Some v ->
  bind (json_field r key) k s = k v s.
Proof.
  intros Hb Hk. unfold json_field, response_json, bind, subscript.
  rewrite Hb. unfold ret. by rewrite Hk.
Qed.

Lemma json_field_missing {A} (r : Response) (key : string)
    (m : gmap string json) (k : json -> M A) (s : BIGIP) :
  json_body r = Some (JObj m) -> m !! key = None ->
  bind (json_field r key) k s = (Raises (KeyError key), s).
Proof.
  intros Hb Hk. unfold json_field, response_json, bind, subscript.
  rewrite Hb. unfold ret. by rewrite Hk.
Qed.

Lemma nth_response_set_log (E : Env) (l : list Event) (s : BIGIP) (k : nat) :
  nth_response E (set_log l s) k = server E (length (requests l) + k).
Proof. reflexivity. Qed.

Lemma session_request_run {A} (E : Env) (m : Method) (url : string)
    (body : option json) (k : Response -> M A) (s : BIGIP) :
  bind (session_request E m url body) k s =
  k (nth_response E s 0)
    (set_log (log s ++ [Http (request_of s m url body)]) s).
Proof. unfold bind, session_request. by rewrite nth_response_0. Qed.

(** A rejected POST ends [task_start] at once. *)
Lemma task_start_rejected (E : Env) (path : string) (data : gmap string json)
    (s : BIGIP) :
  guard_transparent E ->
  py_in (status_code (nth_response E s 0)) [200; 201] = false ->
  exists s1, same_core s s1 /\
    task_start E path data s =
    (Raises (RESTAPIError (nth_response E s 0) (debug s)),
     set_log (log s ++
       [Http (request_of s1 POST (_get_url E path) (Some (JObj data)))]) s1).
Proof.
  intros HG Hst.
  destruct (task_start E path data s) as [out s'] eqn:Hrun.
  unfold task_start in Hrun. pass_guard HG s s1 Hrun.
  exists s1. split; [done |].
  unfold bind at 1 in Hrun. unfold get_self at 1 in Hrun.
  rewrite session_request_run in Hrun.
  unfold nth_response in Hrun, Hst |- *. rewrite Hlog, Hst, Hdbg in Hrun.
  cbn [negb] in Hrun. unfold raise in Hrun. by rewrite <- Hrun.
Qed.

(** POLICY_IMPORT: after the POST, the GET on [<url>/<id>] and nothing in
    between. *)
Lemma task_start_policy (E : Env) (path : string) (data : gmap string json)
    (s : BIGIP) (m : gmap string json) (kind id_ : json) :
  guard_transparent E ->
  let r0 := nth_response E s 0 in
  py_in (status_code r0) [200; 201] = true ->
  json_body r0 = Some (JObj m) ->
  m !! "kind" = Some kind ->
  json_eq_str kind IMPORT_POLICY = true ->
  m !! "id" = Some id_ ->
  let url := _get_url E path in
  exists s1, same_core s s1 /\
    task_start E path data s =
    (get_outcome (debug s) (nth_response E s 1),
     set_log (log s ++
       [Http (request_of s1 POST url (Some (JObj data)));
        Http (request_of s1 GET (url +:+ "/" +:+ py_str E id_) None)]) s1).
Proof.
  intros HG r0 Hst Hbody Hkind Hpol Hid url.
  destruct (task_start E path data s) as [out s'] eqn:Hrun.
  unfold task_start in Hrun. pass_guard HG s s1 Hrun.
  exists s1. split; [done |].
  unfold bind at 1 in Hrun. unfold get_self at 1 in Hrun.
  rewrite session_request_run in Hrun.
  assert (Hr0 : nth_response E s1 0 = r0) by (unfold r0, nth_response; by rewrite Hlog).
  rewrite Hr0, Hst, Hdbg in Hrun. cbn [negb] in Hrun.
  rewrite (json_field_run r0 "kind" m kind) in Hrun by done.
  rewrite Hpol in Hrun.
  unfold bind at 1 in Hrun.
  rewrite (json_field_run r0 "id" m id_) in Hrun by done.
  unfold ret at 1 in Hrun. cbn [fst snd] in Hrun.
  rewrite bool_decide_eq_false_2 in Hrun by (intros H; by apply H).
  unfold bind at 1 in Hrun. unfold ret at 1 in Hrun.
  rewrite session_request_run in Hrun.
  rewrite nth_response_set_log, requests_snoc, length_app, Hlog in Hrun.
  cbn [length] in Hrun. rewrite Nat.add_0_r in Hrun.
  fold (nth_response E s 1) in Hrun.
  unfold get_outcome. rewrite <- Hrun.
  unfold request_of at 2. cbn [log set_log headers timeout].
  rewrite <- app_assoc. cbn [app]. fold url.
  destruct (py_in (status_code (nth_response E s 1)) [200; 202]); cbn [negb];
    [| reflexivity].
  unfold bind, response_json.
  destruct (json_body (nth_response E s 1)); reflexivity.
Qed.

Lemma set_log_set_log (l l' : list Event) (s : BIGIP) :
  set_log l (set_log l' s) = set_log l s.
Proof. reflexivity. Qed.

Lemma requests_cons_http (r : Request) (l : list Event) :
  requests (Http r :: l) = r :: requests l.
Proof. reflexivity. Qed.

Lemma requests_nil : requests [] = [].
Proof. reflexivity. Qed.

Lemma requests_put_echo (E : Env) (r : Response) : requests (put_echo E r) = [].
Proof. unfold put_echo. repeat case_match; reflexivity. Qed.

Lemma requests_app (l1 l2 : list Event) :
  requests (l1 ++ l2) = requests l1 ++ requests l2.
Proof. unfold requests. apply omap_app. Qed.

(** STANDARD: POST, then the finalize PUT on [<url>/<id>], then the GET,
    whatever the status of the PUT. *)
Lemma task_start_standard (E : Env) (path : string) (data : gmap string json)
    (s : BIGIP) (m : gmap string json) (kind id_ : json) :
  guard_transparent E ->
  let r0 := nth_response E s 0 in
  let rp := nth_response E s 1 in
  py_in (status_code r0) [200; 201] = true ->
  json_body r0 = Some (JObj m) ->
  m !! "kind" = Some kind ->
  json_eq_str kind IMPORT_POLICY = false ->
  m !! "_taskId" = Some id_ ->
  (py_in (status_code rp) [200; 202] = true -> json_body rp <> None) ->
  let url := _get_url E path in
  let url_id := url +:+ "/" +:+ py_str E id_ in
  exists s1, same_core s s1 /\
    task_start E path data s =
    (get_outcome (debug s) (nth_response E s 2),
     set_log (log s ++
       [Http (request_of s1 POST url (Some (JObj data)));
        Http (request_of s1 PUT url_id (Some (JObj VALIDATING_payload)))]
       ++ put_echo E rp ++
       [Http (request_of s1 GET url_id None)]) s1).
Proof.
  intros HG r0 rp Hst Hbody Hkind Hpol Hid Hput url url_id.
  destruct (task_start E path data s) as [out s'] eqn:Hrun.
  unfold task_start in Hrun. pass_guard HG s s1 Hrun.
  exists s1. split; [done |].
  unfold bind at 1 in Hrun. unfold get_self at 1 in Hrun.
  rewrite session_request_run in Hrun.
  assert (Hr0 : nth_response E s1 0 = r0)
    by (unfold r0, nth_response; by rewrite Hlog).
  rewrite Hr0, Hst, Hdbg in Hrun. cbn [negb] in Hrun.
  rewrite (json_field_run r0 "kind" m kind) in Hrun by done.
  rewrite Hpol in Hrun.
  unfold bind at 1 in Hrun.
  rewrite (json_field_run r0 "_taskId" m id_) in Hrun by done.
  unfold ret at 1 in Hrun. cbn [fst snd] in Hrun.
  fold VALIDATING_payload url in Hrun. fold url_id in Hrun.
  rewrite bool_decide_eq_true_2 in Hrun
    by (unfold VALIDATING_payload; apply insert_non_empty).
  unfold bind at 1 in Hrun.
  rewrite session_request_run in Hrun.
  rewrite nth_response_set_log, requests_snoc, length_app, Hlog in Hrun.
  cbn [length] in Hrun. rewrite Nat.add_0_r in Hrun.
  fold (nth_response E s 1) in Hrun. fold rp in Hrun.
  unfold request_of at 2 in Hrun. cbn [log set_log headers timeout] in Hrun.
  fold (request_of s1 PUT url_id (Some (JObj VALIDATING_payload))) in Hrun.
  assert (Hfin : forall evs,
    requests evs = [] ->
    bind (session_request E GET url_id None)
      (fun response_get =>
         if negb (py_in (status_code response_get) [200; 202])
         then raise (RESTAPIError response_get (debug s))
         else bind (response_json response_get)
                   (fun j => ret (mkRESTObject j)))
      (set_log (log s ++
       [Http (request_of s1 POST url (Some (JObj data)));
        Http (request_of s1 PUT url_id (Some (JObj VALIDATING_payload)))]
       ++ evs) s1) =
    (get_outcome (debug s) (nth_response E s 2),
     set_log (log s ++
       [Http (request_of s1 POST url (Some (JObj data)));
        Http (request_of s1 PUT url_id (Some (JObj VALIDATING_payload)))]
       ++ evs ++ [Http (request_of s1 GET url_id None)]) s1)).
  { intros evs Hevs.
    rewrite session_request_run, nth_response_set_log.
    rewrite !requests_app, Hevs, !length_app.
    rewrite !requests_cons_http, requests_nil.
    cbn [length].
    replace (length (requests (log s)) + (2 + 0) + 0)%nat
      with (length (requests (log s)) + 2)%nat by lia.
    fold (nth_response E s 2). cbn [log set_log].
    unfold request_of at 3. cbn [headers timeout set_log].
    fold (request_of s1 GET url_id None).
    rewrite <- !app_assoc. unfold get_outcome.
    destruct (py_in (status_code (nth_response E s 2)) [200; 202]);
      cbn [negb]; [| reflexivity].
    unfold bind, response_json.
    destruct (json_body (nth_response E s 2)); reflexivity. }
  rewrite <- Hrun. unfold put_echo.
  destruct (py_in (status_code rp) [200; 202]) eqn:Hp.
  - destruct (json_body rp) as [jp |] eqn:Hjp; [| by destruct Hput].
    unfold bind at 1 2. unfold response_json at 1. rewrite Hjp.
    unfold ret at 1. unfold print, emit. cbv beta iota.
    rewrite !set_log_set_log. cbn [log set_log].
    pose proof (Hfin [Print (py_str E jp)] eq_refl) as Hf.
    rewrite <- !app_assoc. cbn [app] in Hf |- *. exact Hf.
  - unfold bind at 1. unfold ret at 1.
    rewrite !set_log_set_log.
    pose proof (Hfin [] eq_refl) as Hf.
    rewrite <- !app_assoc. cbn [app] in Hf |- *. exact Hf.
Qed.

(** STANDARD, with the finalize PUT answered 200 or 202 by a body that is
    not JSON: decoding it for [print] raises, and the GET is never sent. *)
Lemma task_start_put_undecodable (E : Env) (path : string)
    (data : gmap string json) (s : BIGIP) (m : gmap string json)
    (kind id_ : json) :
  guard_transparent E ->
  let r0 := nth_response E s 0 in
  let rp := nth_response E s 1 in
  py_in (status_code r0) [200; 201] = true ->
  json_body r0 = Some (JObj m) ->
  m !! "kind" = Some kind ->
  json_eq_str kind IMPORT_POLICY = false ->
  m !! "_taskId" = Some id_ ->
  py_in (status_code rp) [200; 202] = true ->
  json_body rp = None ->
  let url := _get_url E path in
  let url_id := url +:+ "/" +:+ py_str E id_ in
  exists s1, same_core s s1 /\
    task_start E path data s =
    (Raises JSONDecodeError,
     set_log (log s ++
       [Http (request_of s1 POST url (Some (JObj data)));
        Http (request_of s1 PUT url_id (Some (JObj VALIDATING_payload)))])
       s1).
Proof.
  intros HG r0 rp Hst Hbody Hkind Hpol Hid Hpst Hpb url url_id.
  destruct (task_start E path data s) as [out s'] eqn:Hrun.
  unfold task_start in Hrun. pass_guard HG s s1 Hrun.
  exists s1. split; [done |].
  unfold bind at 1 in Hrun. unfold get_self at 1 in Hrun.
  rewrite session_request_run in Hrun.
  assert (Hr0 : nth_response E s1 0 = r0)
    by (unfold r0, nth_response; by rewrite Hlog).
  rewrite Hr0, Hst, Hdbg in Hrun. cbn [negb] in Hrun.
  rewrite (json_field_run r0 "kind" m kind) in Hrun by done.
  rewrite Hpol in Hrun.
  unfold bind at 1 in Hrun.
  rewrite (json_field_run r0 "_taskId" m id_) in Hrun by done.
  unfold ret at 1 in Hrun. cbn [fst snd] in Hrun.
  fold VALIDATING_payload url in Hrun. fold url_id in Hrun.
  rewrite bool_decide_eq_true_2 in Hrun
    by (unfold VALIDATING_payload; apply insert_non_empty).
  unfold bind at 1 in Hrun.
  rewrite session_request_run in Hrun.
  rewrite nth_response_set_log, requests_snoc, length_app, Hlog in Hrun.
  cbn [length] in Hrun. rewrite Nat.add_0_r in Hrun.
  fold (nth_response E s 1) in Hrun. fold rp in Hrun.
  unfold request_of at 2 in Hrun. cbn [log set_log headers timeout] in Hrun.
  fold (request_of s1 PUT url_id (Some (JObj VALIDATING_payload))) in Hrun.
  rewrite Hpst in Hrun. unfold bind at 1, response_json in Hrun.
  rewrite Hpb in Hrun. unfold raise in Hrun.
  rewrite set_log_set_log in Hrun. rewrite <- Hrun.
  by rewrite <- app_assoc.
Qed.

Lemma task_start_no_kind (E : Env) (path : string) (data : gmap string json)
    (s : BIGIP) (m : gmap string json) :
  guard_transparent E ->
  py_in (status_code (nth_response E s 0)) [200; 201] = true ->
  json_body (nth_response E s 0) = Some (JObj m) ->
  m !! "kind" = None ->
  fst (task_start E path data s) = Raises (KeyError "kind").
Proof.
  intros HG Hst Hbody Hkind.
  destruct (task_start E path data s) as [out s'] eqn:Hrun.
  unfold task_start in Hrun. pass_guard HG s s1 Hrun.
  unfold bind at 1 in Hrun. unfold get_self at 1 in Hrun.
  rewrite session_request_run in Hrun.
  assert (Hr0 : nth_response E s1 0 = nth_response E s 0)
    by (unfold nth_response; by rewrite Hlog).
  rewrite Hr0, Hst in Hrun. cbn [negb] in Hrun.
  rewrite (json_field_missing _ "kind" m) in Hrun by done.
  by inversion Hrun.
Qed.

(** C4, as the code has it: after an accepted POST whose body has kind
    ["tm:asm:tasks:import-policy:import-policy-taskstate"], [task_start]
    sends the POST and one GET on [<url>/<id>], the id read from [id], and
    no PUT; for another kind it sends the POST, one PUT of
    [{"_taskState": "VALIDATING"}] and one GET, both on [<url>/<_taskId>],
    in that order, whatever the status of the PUT, provided that a PUT
    answered 200 or 202 has a body that decodes as JSON; when such a PUT
    has a body that does not decode, [task_start] raises the decoder's
    exception after the PUT and sends no GET. *)
Theorem task_start_requests (E : Env) (path : string)
    (data : gmap string json) (s : BIGIP) (m : gmap string json)
    (kind id_ : json) :
  guard_transparent E ->
  let r0 := nth_response E s 0 in
  let rp := nth_response E s 1 in
  let url := _get_url E path in
  let url_id := url +:+ "/" +:+ py_str E id_ in
  py_in (status_code r0) [200; 201] = true ->
  json_body r0 = Some (JObj m) ->
  m !! "kind" = Some kind ->
  (json_eq_str kind IMPORT_POLICY = true ->
   m !! "id" = Some id_ ->
   exists hs t,
     requests (log (snd (task_start E path data s))) =
     requests (log s) ++
     [mkRequest POST url hs (Some (JObj data)) t;
      mkRequest GET url_id hs None t]) /\
  (json_eq_str kind IMPORT_POLICY = false ->
   m !! "_taskId" = Some id_ ->
   (py_in (status_code rp) [200; 202] = true -> json_body rp <> None) ->
   exists hs t,
     requests (log (snd (task_start E path data s))) =
     requests (log s) ++
     [mkRequest POST url hs (Some (JObj data)) t;
      mkRequest PUT url_id hs
        (Some (JObj {[ "_taskState" := JStr "VALIDATING" ]})) t;
      mkRequest GET url_id hs None t]) /\
  (json_eq_str kind IMPORT_POLICY = false ->
   m !! "_taskId" = Some id_ ->
   py_in (status_code rp) [200; 202] = true ->
   json_body rp = None ->
   fst (task_start E path data s) = Raises JSONDecodeError /\
   exists hs t,
     requests (log (snd (task_start E path data s))) =
     requests (log s) ++
     [mkRequest POST url hs (Some (JObj data)) t;
      mkRequest PUT url_id hs
        (Some (JObj {[ "_taskState" := JStr "VALIDATING" ]})) t]).
Proof.
  intros HG r0 rp url url_id Hst Hbody Hkind. split; [| split].
  - intros Hpol Hid.
    destruct (task_start_policy E path data s m kind id_ HG Hst Hbody Hkind
                Hpol Hid) as (s1 & _ & ->).
    exists (headers s1), (timeout s1). cbn [snd log set_log].
    by rewrite requests_app.
  - intros Hpol Hid Hput.
    destruct (task_start_standard E path data s m kind id_ HG Hst Hbody Hkind
                Hpol Hid Hput) as (s1 & _ & ->).
    exists (headers s1), (timeout s1). cbn [snd log set_log].
    rewrite !requests_app, requests_put_echo. reflexivity.
  - intros Hpol Hid Hpst Hpb.
    destruct (task_start_put_undecodable E path data s m kind id_ HG Hst
                Hbody Hkind Hpol Hid Hpst Hpb) as (s1 & _ & ->).
    split; [reflexivity |].
    exists (headers s1), (timeout s1). cbn [snd log set_log].
    by rewrite requests_app.
Qed.

Lemma get_outcome_raises (d : option string) (rg : Response) :
  (exists r d', get_outcome d rg = Raises (RESTAPIError r d')) <->
  py_in (status_code rg) [200; 202] = false.
Proof.
  unfold get_outcome. split.
  - intros (r & d' & H). destruct (py_in (status_code rg) [200; 202]);
      [| done]. destruct (json_body rg); discriminate.
  - intros ->. eauto.
Qed.

(** C5, as the code has it: [task_start] raises [RESTAPIError] exactly
    when the status of the POST is not 200 or 201, or the final GET is sent
    and its status is not 200 or 202.  The GET is sent unless the finalize
    PUT is answered 200 or 202 with a body that is not JSON: then
    [task_start] raises the decoder's exception, as it decodes the body of
    an accepted PUT to print it.  Apart from that the outcome is a function
    of the POST and GET responses alone: a PUT with any other status, or
    with a JSON body, never makes [task_start] fail. *)
Theorem task_start_raises_iff (E : Env) (path : string)
    (data : gmap string json) (s : BIGIP) :
  guard_transparent E ->
  let r0 := nth_response E s 0 in
  let rg := start_get_response E s in
  let out := fst (task_start E path data s) in
  (py_in (status_code r0) [200; 201] = true -> created_well_formed r0) ->
  ((exists r d, out = Raises (RESTAPIError r d)) <->
   py_in (status_code r0) [200; 201] = false \/
   (put_blocks E s = false /\ py_in (status_code rg) [200; 202] = false)) /\
  out = (if py_in (status_code r0) [200; 201]
         then if put_blocks E s
              then Raises JSONDecodeError
              else get_outcome (debug s) rg
         else Raises (RESTAPIError r0 (debug s))).
Proof.
  intros HG r0 rg out Hwf.
  assert (Hout : out = (if py_in (status_code r0) [200; 201]
                        then if put_blocks E s
                             then Raises JSONDecodeError
                             else get_outcome (debug s) rg
                        else Raises (RESTAPIError r0 (debug s)))).
  { subst out. destruct (py_in (status_code r0) [200; 201]) eqn:Hst.
    - destruct (Hwf eq_refl) as (m & kind & id_ & Hbody & Hkind & Hid).
      assert (Hpi : is_policy_import r0 = json_eq_str kind IMPORT_POLICY).
      { unfold is_policy_import. by rewrite Hbody, Hkind. }
      subst rg. unfold start_get_response, put_blocks. fold r0.
      rewrite Hpi.
      destruct (json_eq_str kind IMPORT_POLICY) eqn:Hpol; cbn [negb andb].
      + destruct (task_start_policy E path data s m kind id_ HG Hst Hbody
                    Hkind Hpol Hid) as (s1 & _ & ->). reflexivity.
      + destruct (py_in (status_code (nth_response E s 1)) [200; 202])
          eqn:Hpst; cbn [andb].
        * destruct (json_body (nth_response E s 1)) as [jp |] eqn:Hpb.
          -- destruct (task_start_standard E path data s m kind id_ HG Hst
                         Hbody Hkind Hpol Hid) as (s1 & _ & ->);
               [intros _; fold (nth_response E s 1); by rewrite Hpb |].
             reflexivity.
          -- destruct (task_start_put_undecodable E path data s m kind id_
                         HG Hst Hbody Hkind Hpol Hid Hpst Hpb)
               as (s1 & _ & ->). reflexivity.
        * destruct (task_start_standard E path data s m kind id_ HG Hst
                      Hbody Hkind Hpol Hid) as (s1 & _ & ->);
            [intros Hc; fold (nth_response E s 1) in Hc; congruence |].
          reflexivity.
    - destruct (task_start_rejected E path data s HG Hst) as (s1 & _ & ->).
      reflexivity. }
  split; [| exact Hout]. rewrite Hout.
  destruct (py_in (status_code r0) [200; 201]).
  - destruct (put_blocks E s).
    + split; [by intros (? & ? & ?) | by intros [? | [? _]]].
    + rewrite get_outcome_raises.
      split; [by right | by intros [? | [_ ?]]].
  - split; [by left | eauto].
Qed.

(** ** [task_wait] *)

(** One turn of the loop, with the guard resolved. *)
Lemma wait_step (E : Env) (url : string) (interval : Z) (s : BIGIP) :
  guard_transparent E ->
  exists s1, same_core s s1 /\
    forall fuel,
      task_wait_loop E (S fuel) url interval s =
      wait_iteration E url interval (nth_response E s 0) s s1
                     (task_wait_loop E fuel url interval).
Proof.
  intros HG.
  destruct (check_auth_ok _ HG s) as (s1 & Hca & Hlog & Hdbg & Htr & Hhd).
  exists s1. split; [done |]. intros fuel.
  destruct (task_wait_loop E (S fuel) url interval s) as [out s'] eqn:Hrun.
  cbn [task_wait_loop] in Hrun.
  unfold bind at 1 in Hrun. rewrite Hca in Hrun. cbv beta iota in Hrun.
  unfold bind at 1 in Hrun. unfold get_self at 1 in Hrun.
  rewrite session_request_run in Hrun.
  assert (Hr0 : nth_response E s1 0 = nth_response E s 0)
    by (unfold nth_response; by rewrite Hlog).
  rewrite Hr0, Hdbg, Hlog in Hrun.
  set (r := nth_response E s 0) in *.
  rewrite <- Hrun. unfold wait_iteration.
  fold (is_transient r).
  destruct (is_transient r) eqn:Htr'.
  - assert (H5 : status_code r = 500).
    { unfold is_transient in Htr'. apply andb_true_iff in Htr' as [H _].
      by apply Z.eqb_eq in H. }
    unfold bind at 1 2. unfold print, sleep, emit. cbv beta iota.
    rewrite H5. cbn [Z.eqb Pos.eqb negb]. unfold raise.
    destruct (sleep_error interval);
      rewrite ?set_log_set_log; cbn [log set_log];
      by rewrite <- !app_assoc.
  - unfold bind at 1. unfold ret at 1.
    destruct (status_code r =? 200)%Z; cbn [negb]; [| reflexivity].
    rewrite extract_state_run.
    destruct (spec_task_state r) as [st |] eqn:Hst; [| reflexivity].
    destruct (json_eq_str st "FAILURE"); [reflexivity |].
    destruct (json_eq_str st "COMPLETED").
    + unfold bind, response_json. destruct (json_body r); reflexivity.
    + unfold bind, sleep, emit, raise.
      destruct (sleep_error interval); [reflexivity |].
      rewrite !set_log_set_log. cbn [log set_log].
      by rewrite <- !app_assoc.
Qed.

Lemma pending_not_transient (r : Response) :
  is_pending r = true -> is_transient r = false.
Proof.
  unfold is_pending, is_transient. intros [H _]%andb_true_iff.
  apply Z.eqb_eq in H. by rewrite H.
Qed.

Lemma sleep_error_accepts (interval : Z) :
  sleep_accepts interval -> sleep_error interval = None.
Proof.
  unfold sleep_accepts, sleep_error. intros [Hlo Hhi].
  destruct (Z.ltb_spec interval (- SLEEP_MAX));
    [unfold SLEEP_MAX in *; lia |].
  destruct (Z.ltb_spec SLEEP_MAX interval); [lia |].
  destruct (Z.ltb_spec interval 0); [lia | reflexivity].
Qed.

Lemma pending_iteration (E : Env) (url : string) (interval : Z)
    (r : Response) (s s1 : BIGIP) (continue : M RESTObject) :
  is_pending r = true ->
  sleep_accepts interval ->
  wait_iteration E url interval r s s1 continue =
  continue (set_log (log s ++
              [Http (request_of s1 GET url None); Sleep interval]) s1).
Proof.
  intros Hp Hsl. unfold wait_iteration. rewrite (pending_not_transient r Hp).
  unfold is_pending in Hp. apply andb_true_iff in Hp as [H2 Hst].
  rewrite H2. cbn [negb].
  destruct (spec_task_state r) as [st |]; [| discriminate].
  apply andb_true_iff in Hst as [Hf Hc].
  apply negb_true_iff in Hf, Hc.
  by rewrite Hf, Hc, (sleep_error_accepts interval Hsl).
Qed.

Lemma sleeps_app (l1 l2 : list Event) :
  sleeps (l1 ++ l2) = sleeps l1 ++ sleeps l2.
Proof. unfold sleeps. apply omap_app. Qed.

Lemma repeat_snoc {A} (x : A) (n : nat) : repeat x n ++ [x] = x :: repeat x n.
Proof. induction n as [| n IH]; [done |]. simpl. by rewrite IH. Qed.

(** As long as the responses are pending the loop goes on: [n] pending
    responses cost [n] polls and [n] sleeps and leave the rest of the loop
    to run. *)
Lemma wait_loop_pending (E : Env) (url : string) (interval : Z) (n : nat) :
  guard_transparent E ->
  ((0 < n)%nat -> sleep_accepts interval) ->
  forall s,
    (forall i, (i < n)%nat -> is_pending (nth_response E s i) = true) ->
    exists s2 polls,
      (forall fuel,
         task_wait_loop E (n + fuel) url interval s =
         task_wait_loop E fuel url interval s2) /\
      requests (log s2) = requests (log s) ++ polls /\
      length polls = n /\
      Forall (is_poll url) polls /\
      sleeps (log s2) = sleeps (log s) ++ repeat interval n /\
      debug s2 = debug s.
Proof.
  intros HG. induction n as [| n IH]; intros Hsleep s Hpend.
  - exists s, []. rewrite !app_nil_r. by repeat split.
  - set (sa := fun s1 => set_log (log s ++
              [Http (request_of s1 GET url None); Sleep interval]) s1).
    assert (Hstep : exists s1, same_core s s1 /\
              forall fuel, task_wait_loop E (S fuel) url interval s =
                           task_wait_loop E fuel url interval (sa s1)).
    { destruct (wait_step E url interval s HG) as (s1 & Hsc & Hs).
      exists s1. split; [done |]. intros fuel.
      rewrite Hs. apply pending_iteration; [apply Hpend | apply Hsleep]; lia. }
    destruct Hstep as (s1 & (Hlog & Hdbg & _) & Hstep).
    assert (Hreq : requests (log (sa s1)) =
                   requests (log s) ++ [request_of s1 GET url None]).
    { unfold sa. cbn [log set_log].
      by rewrite requests_app, requests_cons_http. }
    destruct (IH (fun _ => Hsleep (Nat.lt_0_succ n)) (sa s1))
      as (s2 & polls & Hrun & Hrq & Hlen & Hall & Hsl & Hd).
    { intros i Hi. unfold nth_response. rewrite Hreq, length_app.
      cbn [length]. replace (length (requests (log s)) + 1 + i)%nat
        with (length (requests (log s)) + S i)%nat by lia.
      apply Hpend. lia. }
    exists s2, (request_of s1 GET url None :: polls).
    split; [intros fuel; cbn [Nat.add]; by rewrite Hstep, Hrun |].
    split; [by rewrite Hrq, Hreq, <- app_assoc |].
    split; [cbn [length]; by rewrite Hlen |].
    split; [by constructor |].
    split; [| by rewrite Hd].
    rewrite Hsl. unfold sa. cbn [log set_log].
    rewrite sleeps_app, <- app_assoc. by cbn [sleeps omap list_omap app repeat].
Qed.

(** After [n] pending responses, [task_wait] is at the iteration that
    handles response [n]. *)
Lemma task_wait_reaches (E : Env) (obj : RESTObject) (path : string)
    (interval : Z) (n fuel : nat) (s : BIGIP) :
  guard_transparent E ->
  _get_path E obj = inr path ->
  (forall i, (i < n)%nat -> is_pending (nth_response E s i) = true) ->
  ((0 < n)%nat -> sleep_accepts interval) ->
  (n < fuel)%nat ->
  let url := _get_url E path in
  exists s2 s3 polls,
    same_core s2 s3 /\
    debug s2 = debug s /\
    requests (log s2) = requests (log s) ++ polls /\
    length polls = n /\
    Forall (is_poll url) polls /\
    sleeps (log s2) = sleeps (log s) ++ repeat interval n /\
    task_wait E fuel obj interval s =
    wait_iteration E url interval (nth_response E s n) s2 s3
                   (task_wait_loop E (fuel - S n) url interval).
Proof.
  intros HG Hpath Hpend Hsleep Hfuel url.
  destruct (check_auth_ok _ HG s) as (s1 & Hca & Hlog & Hdbg & Htr & Hhd).
  destruct (wait_loop_pending E url interval n HG Hsleep s1)
    as (s2 & polls & Hrun & Hrq & Hlen & Hall & Hsl & Hd).
  { intros i Hi. unfold nth_response. rewrite Hlog. by apply Hpend. }
  destruct (wait_step E url interval s2 HG) as (s3 & Hsc & Hstep).
  exists s2, s3, polls.
  rewrite Hlog in Hrq, Hsl.
  repeat (split; [done || congruence |]).
  unfold task_wait, bind at 1. rewrite Hca.
  unfold bind at 1, lift_path. rewrite Hpath. unfold ret at 1.
  fold url.
  replace fuel with (n + S (fuel - S n))%nat at 1 by lia.
  rewrite Hrun, Hstep. f_equal.
  unfold nth_response. rewrite Hrq, length_app, Hlen. f_equal. lia.
Qed.

(** C6: when the first [n] poll responses are pending and response [n] has
    status 200, [task_wait] finishes at that response, given fuel for
    [n + 1] iterations and, when there is a pending response to sleep on,
    an interval [time.sleep] accepts: if its extracted state is COMPLETED
    the body of that response is returned as the task, and if it is FAILURE
    [RESTAPIError] is raised for that response; either way [n + 1] polls
    were sent and [n] sleeps taken. *)
Theorem task_wait_terminal (E : Env) (obj : RESTObject) (path : string)
    (interval : Z) (n fuel : nat) (s : BIGIP) (st : json) :
  guard_transparent E ->
  _get_path E obj = inr path ->
  (forall i, (i < n)%nat -> is_pending (nth_response E s i) = true) ->
  ((0 < n)%nat -> sleep_accepts interval) ->
  let r := nth_response E s n in
  let run := task_wait E fuel obj interval s in
  status_code r = 200 ->
  spec_task_state r = Some st ->
  (n < fuel)%nat ->
  (json_eq_str st "COMPLETED" = true ->
     exists j, json_body r = Some j /\ fst run = Returns (mkRESTObject j)) /\
  (json_eq_str st "FAILURE" = true ->
     fst run = Raises (RESTAPIError r (debug s))) /\
  (json_eq_str st "COMPLETED" = true \/ json_eq_str st "FAILURE" = true ->
     exists polls,
       requests (log (snd run)) = requests (log s) ++ polls /\
       length polls = S n /\
       Forall (is_poll (_get_url E path)) polls /\
       sleeps (log (snd run)) = sleeps (log s) ++ repeat interval n).
Proof.
  intros HG Hpath Hpend Hsleep r run H2 Hst Hfuel.
  destruct (task_wait_reaches E obj path interval n fuel s HG Hpath Hpend
              Hsleep Hfuel)
    as (s2 & s3 & polls & (Hlog3 & _) & Hd & Hrq & Hlen & Hall & Hsl & Hrun).
  subst run. rewrite Hrun. fold r. unfold wait_iteration.
  assert (Htr : is_transient r = false)
    by (unfold is_transient; by rewrite H2).
  rewrite Htr, H2, Hst, Hd. cbn [Z.eqb Pos.eqb negb].
  assert (Hbody : exists j, json_body r = Some j).
  { unfold spec_task_state in Hst. destruct (json_body r); [eauto | done]. }
  assert (Hfin : exists polls',
    requests (log (set_log (log s2 ++
       [Http (request_of s3 GET (_get_url E path) None)]) s3)) =
      requests (log s) ++ polls' /\
    length polls' = S n /\
    Forall (is_poll (_get_url E path)) polls' /\
    sleeps (log (set_log (log s2 ++
       [Http (request_of s3 GET (_get_url E path) None)]) s3)) =
      sleeps (log s) ++ repeat interval n).
  { exists (polls ++ [request_of s3 GET (_get_url E path) None]).
    cbn [log set_log].
    rewrite requests_snoc, Hrq, <- app_assoc, length_app, Hlen.
    split; [done |]. split; [cbn [length]; lia |].
    split; [apply Forall_app; split; [done | by repeat constructor] |].
    rewrite sleeps_app, Hsl. cbn [sleeps omap list_omap].
    by rewrite app_nil_r. }
  destruct (json_eq_str st "FAILURE") eqn:Hf.
  - rewrite (failure_not_completed st Hf).
    split; [done |]. split; [done |]. intros _. exact Hfin.
  - destruct (json_eq_str st "COMPLETED") eqn:Hc.
    + destruct Hbody as [j Hj]. rewrite Hj.
      split; [eauto |]. split; [done |]. intros _. exact Hfin.
    + split; [done |]. split; [done |]. by intros [? | ?].
Qed.

(** The transient condition: the loop prints, sleeps, and then raises on the
    very response it announced it would wait on, as the status test that
    follows sees status 500. *)
Lemma task_wait_transient_raises (E : Env) (obj : RESTObject)
    (path : string) (interval : Z) (n fuel : nat) (s : BIGIP) :
  guard_transparent E ->
  _get_path E obj = inr path ->
  (forall i, (i < n)%nat -> is_pending (nth_response E s i) = true) ->
  sleep_accepts interval ->
  is_transient (nth_response E s n) = true ->
  (n < fuel)%nat ->
  fst (task_wait E fuel obj interval s) =
    Raises (RESTAPIError (nth_response E s n) (debug s)) /\
  sleeps (log (snd (task_wait E fuel obj interval s))) =
    sleeps (log s) ++ repeat interval (S n) /\
  length (requests (log (snd (task_wait E fuel obj interval s)))) =
    (length (requests (log s)) + S n)%nat.
Proof.
  intros HG Hpath Hpend Hsleep Htr Hfuel.
  destruct (task_wait_reaches E obj path interval n fuel s HG Hpath Hpend
              (fun _ => Hsleep) Hfuel)
    as (s2 & s3 & polls & _ & Hd & Hrq & Hlen & Hall & Hsl & Hrun).
  rewrite Hrun. unfold wait_iteration.
  rewrite Htr, Hd, (sleep_error_accepts interval Hsleep).
  cbn [fst snd log set_log].
  split; [done |].
  rewrite sleeps_app, requests_app, Hsl, Hrq, requests_cons_http.
  cbn [sleeps omap list_omap requests].
  rewrite <- app_assoc, repeat_snoc, !length_app, Hlen. cbn [repeat length].
  split; [reflexivity | lia].
Qed.

Lemma task_completed_run (E : Env) (obj : RESTObject) (path : string)
    (s : BIGIP) :
  guard_transparent E ->
  _get_path E obj = inr path ->
  let r := nth_response E s 0 in
  fst (task_completed E obj s) =
    if negb (status_code r =? 200)%Z
    then Raises (RESTAPIError r (debug s))
    else match spec_task_state r with
         | None => Raises (state_error r)
         | Some st =>
             if json_eq_str st "FAILURE"
             then Raises (RESTAPIError r (debug s))
             else Returns (json_eq_str st "COMPLETED")
         end.
Proof.
  intros HG Hpath r.
  destruct (task_completed E obj s) as [out s'] eqn:Hrun.
  unfold task_completed in Hrun. pass_guard HG s s1 Hrun.
  unfold bind at 1 in Hrun. unfold get_self at 1 in Hrun.
  unfold bind at 1 in Hrun. unfold lift_path at 1 in Hrun.
  rewrite Hpath in Hrun. unfold ret at 1 in Hrun. send Hrun.
  rewrite Hlog, nth_response_0, Hdbg in Hrun. fold r in Hrun.
  cbn [fst]. destruct (negb (status_code r =? 200)%Z).
  - by inversion Hrun.
  - rewrite extract_state_run in Hrun.
    destruct (spec_task_state r) as [st |]; [| by inversion Hrun].
    destruct (json_eq_str st "FAILURE"); [by inversion Hrun |].
    destruct (json_eq_str st "COMPLETED"); by inversion Hrun.
Qed.

Lemma no_kind_state (r : Response) (m : gmap string json) :
  json_body r = Some (JObj m) -> m !! "kind" = None ->
  spec_task_state r = None /\ state_error r = KeyError "kind".
Proof.
  intros Hb Hk. unfold spec_task_state, state_error. by rewrite Hb, Hk.
Qed.

(** C10: [task_start], [task_completed] and [task_wait] read [kind] from
    every accepted response before anything else: on a status-200 response
    whose JSON object has no [kind] each of them raises [KeyError] for
    ["kind"], not [RESTAPIError], whatever other fields the body has.  For
    [task_wait] the response may be any one it reaches through pending
    responses, slept on with an interval [time.sleep] accepts. *)
Theorem kind_is_required (E : Env) (s : BIGIP) :
  guard_transparent E ->
  (forall path data m,
     let r := nth_response E s 0 in
     status_code r = 200 -> json_body r = Some (JObj m) ->
     m !! "kind" = None ->
     fst (task_start E path data s) = Raises (KeyError "kind")) /\
  (forall obj path m,
     let r := nth_response E s 0 in
     _get_path E obj = inr path ->
     status_code r = 200 -> json_body r = Some (JObj m) ->
     m !! "kind" = None ->
     fst (task_completed E obj s) = Raises (KeyError "kind")) /\
  (forall obj path interval n fuel m,
     let r := nth_response E s n in
     _get_path E obj = inr path ->
     (forall i, (i < n)%nat -> is_pending (nth_response E s i) = true) ->
     ((0 < n)%nat -> sleep_accepts interval) ->
     (n < fuel)%nat ->
     status_code r = 200 -> json_body r = Some (JObj m) ->
     m !! "kind" = None ->
     fst (task_wait E fuel obj interval s) = Raises (KeyError "kind")).
Proof.
  intros HG. repeat split.
  - intros path data m r H2 Hb Hk.
    apply (task_start_no_kind E path data s m HG); [| done | done].
    fold r. by rewrite H2.
  - intros obj path m r Hpath H2 Hb Hk.
    rewrite (task_completed_run E obj path s HG Hpath). fold r.
    destruct (no_kind_state r m Hb Hk) as [-> ->]. by rewrite H2.
  - intros obj path interval n fuel m r Hpath Hpend Hsleep Hfuel H2 Hb Hk.
    destruct (task_wait_reaches E obj path interval n fuel s HG Hpath Hpend
                Hsleep Hfuel) as (s2 & s3 & polls & _ & _ & _ & _ & _ & _ & ->).
    fold r. unfold wait_iteration.
    destruct (no_kind_state r m Hb Hk) as [-> ->].
    assert (Htr : is_transient r = false)
      by (unfold is_transient; by rewrite H2).
    by rewrite Htr, H2.
Qed.

(** ** Transactions *)

Lemma transaction_create_run (E : Env) (s : BIGIP) (m : gmap string json)
    (tid : json) :
  guard_transparent E ->
  let r := nth_response E s 0 in
  status_code r = 200 ->
  json_body r = Some (JObj m) ->
  m !! "transId" = Some tid ->
  exists s1, same_core s s1 /\
    transaction_create E s =
    (Returns (mkRESTObject (JObj m)),
     set_headers (<[COORD := py_str E tid]> (headers s1))
       (set_transaction tid
          (set_log (log s ++
             [Http (request_of s1 POST (_get_url E "/mgmt/tm/transaction")
                               (Some (JObj ∅)))]) s1))).
Proof.
  intros HG r H2 Hb Htid.
  destruct (transaction_create E s) as [out s'] eqn:Hrun.
  unfold transaction_create in Hrun. pass_guard HG s s1 Hrun.
  exists s1. split; [done |].
  unfold bind at 1 in Hrun. unfold get_self at 1 in Hrun.
  rewrite session_request_run in Hrun.
  assert (Hr0 : nth_response E s1 0 = r)
    by (unfold r, nth_response; by rewrite Hlog).
  rewrite Hr0, H2, Hlog in Hrun. cbn [Z.eqb Pos.eqb negb] in Hrun.
  rewrite (json_field_run r "transId" m tid) in Hrun by done.
  unfold bind, get_self, headers_update, response_json in Hrun.
  rewrite Hb in Hrun. unfold ret in Hrun.
  by rewrite <- Hrun.
Qed.

(** The control calls, with the guard resolved: the header is popped, the
    PATCH goes out without it, and only a validate that is answered with
    status 200 puts it back. *)
Lemma transaction_validate_run (E : Env) (s : BIGIP) (v : string) :
  guard_transparent E ->
  coordination s = Some v ->
  let r := nth_response E s 0 in
  exists s1, same_core s s1 /\
    let sent :=
      set_log (log s ++
        [Http (mkRequest PATCH (transaction_url E s)
                 (delete COORD (headers s1))
                 (Some (JObj validate_payload)) (timeout s1))])
        (set_headers (delete COORD (headers s1)) s1) in
    transaction_validate E s =
    if (status_code r =? 200)%Z
    then (decoded r,
          set_headers (<[COORD := py_str E (_transaction s)]>
                         (delete COORD (headers s1))) sent)
    else (Raises (RESTAPIError r (debug s)), sent).
Proof.
  intros HG Hv r.
  destruct (transaction_validate E s) as [out s'] eqn:Hrun.
  unfold transaction_validate in Hrun. pass_guard HG s s1 Hrun.
  exists s1. split; [done |].
  unfold bind at 1 in Hrun. unfold get_self at 1 in Hrun.
  unfold bind at 1 in Hrun. unfold headers_pop at 1 in Hrun.
  unfold coordination in Hv. rewrite Hhd, Hv in Hrun.
  rewrite session_request_run in Hrun.
  assert (Hr0 : nth_response E (set_headers (delete COORD (headers s1)) s1) 0
                = r) by (unfold r, nth_response; cbn [log set_headers];
                         by rewrite Hlog).
  rewrite Hr0, Hdbg, Htr in Hrun. cbn [log set_headers] in Hrun.
  rewrite Hlog in Hrun. unfold request_of in Hrun.
  cbn [headers timeout set_headers] in Hrun.
  fold (transaction_url E s) in Hrun. rewrite <- Hrun.
  cbv zeta. unfold validate_payload.
  destruct (status_code r =? 200)%Z; cbn [negb].
  - unfold bind, headers_update, response_json, decoded.
    destruct (json_body r); reflexivity.
  - reflexivity.
Qed.

Lemma transaction_commit_run (E : Env) (s : BIGIP) (v : string) :
  guard_transparent E ->
  coordination s = Some v ->
  let r := nth_response E s 0 in
  exists s1, same_core s s1 /\
    let sent :=
      set_log (log s ++
        [Http (mkRequest PATCH (transaction_url E s)
                 (delete COORD (headers s1))
                 (Some (JObj commit_payload)) (timeout s1))])
        (set_headers (delete COORD (headers s1)) s1) in
    transaction_commit E s =
    (if (status_code r =? 200)%Z
     then decoded r
     else Raises (RESTAPIError r (debug s)), sent).
Proof.
  intros HG Hv r.
  destruct (transaction_commit E s) as [out s'] eqn:Hrun.
  unfold transaction_commit in Hrun. pass_guard HG s s1 Hrun.
  exists s1. split; [done |].
  unfold bind at 1 in Hrun. unfold get_self at 1 in Hrun.
  unfold bind at 1 in Hrun. unfold headers_pop at 1 in Hrun.
  unfold coordination in Hv. rewrite Hhd, Hv in Hrun.
  rewrite session_request_run in Hrun.
  assert (Hr0 : nth_response E (set_headers (delete COORD (headers s1)) s1) 0
                = r) by (unfold r, nth_response; cbn [log set_headers];
                         by rewrite Hlog).
  rewrite Hr0, Hdbg, Htr in Hrun. cbn [log set_headers] in Hrun.
  rewrite Hlog in Hrun. unfold request_of in Hrun.
  cbn [headers timeout set_headers] in Hrun.
  fold (transaction_url E s) in Hrun. rewrite <- Hrun.
  cbv zeta. unfold commit_payload.
  destruct (status_code r =? 200)%Z; cbn [negb].
  - unfold bind, response_json, decoded.
    destruct (json_body r); reflexivity.
  - reflexivity.
Qed.

Lemma control_call_sent (s s1 : BIGIP) (url : string)
    (payload : gmap string json) :
  let rq := mkRequest PATCH url (delete COORD (headers s1))
                      (Some (JObj payload)) (timeout s1) in
  requests (log (set_log (log s ++ [Http rq])
                         (set_headers (delete COORD (headers s1)) s1))) =
    requests (log s) ++ [rq] /\
  is_control_call url payload rq.
Proof.
  cbn [log set_log]. split; [apply requests_snoc |].
  repeat split. apply lookup_delete_eq.
Qed.

(** C3: along create, validate, commit, each answered with status 200 (the
    commit with any status): after [transaction_create] the coordination
    header holds the transaction id; the PATCH of [transaction_validate]
    is sent without the header and the header holds the id again when it
    returns; the PATCH of [transaction_commit] is sent without it and the
    header is absent afterwards, whatever the device answered. *)
Theorem coordination_header_lifecycle (E : Env) (s : BIGIP)
    (m : gmap string json) (tid : json) :
  guard_transparent E ->
  let r0 := nth_response E s 0 in
  let r1 := nth_response E s 1 in
  let r2 := nth_response E s 2 in
  let url := _get_url E ("/mgmt/tm/transaction/" +:+ py_str E tid) in
  status_code r0 = 200 ->
  json_body r0 = Some (JObj m) ->
  m !! "transId" = Some tid ->
  status_code r1 = 200 ->
  exists s1 s2 s3,
    transaction_create E s = (Returns (mkRESTObject (JObj m)), s1) /\
    coordination s1 = Some (py_str E tid) /\
    transaction_validate E s1 = (decoded r1, s2) /\
    (exists rq, requests (log s2) = requests (log s1) ++ [rq] /\
                is_control_call url validate_payload rq) /\
    coordination s2 = Some (py_str E tid) /\
    transaction_commit E s2 =
      (if (status_code r2 =? 200)%Z
       then decoded r2
       else Raises (RESTAPIError r2 (debug s)), s3) /\
    (exists rq, requests (log s3) = requests (log s2) ++ [rq] /\
                is_control_call url commit_payload rq) /\
    coordination s3 = None.
Proof.
  intros HG r0 r1 r2 url H0 Hb Htid H1.
  destruct (transaction_create_run E s m tid HG H0 Hb Htid)
    as (sa & (Hloga & Hdbga & _ & _) & Hcreate).
  set (s1 := set_headers (<[COORD := py_str E tid]> (headers sa))
       (set_transaction tid
          (set_log (log s ++
             [Http (request_of sa POST (_get_url E "/mgmt/tm/transaction")
                               (Some (JObj ∅)))]) sa))) in *.
  assert (Hc1 : coordination s1 = Some (py_str E tid))
    by apply lookup_insert_eq.
  assert (Hq1 : requests (log s1) = requests (log s) ++
            [request_of sa POST (_get_url E "/mgmt/tm/transaction")
                        (Some (JObj ∅))]) by apply requests_snoc.
  assert (Hu1 : transaction_url E s1 = url) by reflexivity.
  assert (Hn1 : nth_response E s1 0 = r1).
  { unfold r1, nth_response. rewrite Hq1, length_app. f_equal.
    cbn [length]. lia. }
  destruct (transaction_validate_run E s1 (py_str E tid) HG Hc1)
    as (sb & (Hlogb & Hdbgb & Htrb & _) & Hvalidate).
  cbv zeta in Hvalidate. rewrite Hn1, H1, Hu1 in Hvalidate.
  cbn [Z.eqb Pos.eqb] in Hvalidate.
  set (sent := set_log (log s1 ++
        [Http (mkRequest PATCH url (delete COORD (headers sb))
                 (Some (JObj validate_payload)) (timeout sb))])
        (set_headers (delete COORD (headers sb)) sb)) in *.
  set (s2 := set_headers (<[COORD := py_str E (_transaction s1)]>
                            (delete COORD (headers sb))) sent) in *.
  assert (Hc2 : coordination s2 = Some (py_str E tid))
    by apply lookup_insert_eq.
  destruct (control_call_sent s1 sb url validate_payload) as [Hq2 Hcall2].
  assert (Hu2 : transaction_url E s2 = url).
  { unfold transaction_url. change (_transaction s2) with (_transaction sb).
    by rewrite Htrb. }
  assert (Hn2 : nth_response E s2 0 = r2).
  { unfold r2, nth_response, s2, sent. cbn [log set_headers set_log].
    rewrite requests_snoc, Hq1, !length_app. f_equal. cbn [length]. lia. }
  destruct (transaction_commit_run E s2 (py_str E tid) HG Hc2)
    as (sc & (Hlogc & Hdbgc & _ & _) & Hcommit).
  cbv zeta in Hcommit. rewrite Hn2, Hu2 in Hcommit.
  destruct (control_call_sent s2 sc url commit_payload) as [Hq3 Hcall3].
  eexists s1, s2, _.
  split; [exact Hcreate |]. split; [exact Hc1 |].
  split; [exact Hvalidate |].
  split; [eexists; split; [exact Hq2 | exact Hcall2] |].
  split; [exact Hc2 |].
  assert (Hd2 : debug s2 = debug s).
  { change (debug s2) with (debug sb). rewrite Hdbgb.
    change (debug s1) with (debug sa). exact Hdbga. }
  rewrite Hd2 in Hcommit.
  split; [exact Hcommit |].
  split; [eexists; split; [exact Hq3 | exact Hcall3] |].
  apply lookup_delete_eq.
Qed.

(** ** The [with] statement *)

Lemma last_snoc_request (l : list Request) (rq : Request) :
  last (l ++ [rq]) = Some rq.
Proof. apply last_snoc. Qed.

(** C2, as the code has it: [__enter__] is [transaction_create] and the
    body runs on the transaction it returns; [__exit__] calls
    [transaction_commit] on every exit of the body, whether the body
    returned or raised.  With the coordination header still set when the
    body ends, the commit PATCH is sent and the header removed on both
    paths; when the device answers it with status 200 and a JSON body the
    statement ends as the body did (its value, or its exception raised
    again); on status 200 with a body that is not JSON it raises the
    decoder's exception, and on any other status [RESTAPIError] for the
    commit, on both paths. *)
Theorem with_statement_commits_on_every_exit (E : Env) (A : Type)
    (body : RESTObject -> M A) (s s1 sb : BIGIP) (t : RESTObject)
    (r : Outcome A) (v : string) :
  guard_transparent E ->
  transaction_create E s = (Returns t, s1) ->
  body t s1 = (r, sb) ->
  r <> OutOfFuel ->
  coordination sb = Some v ->
  let rc := nth_response E sb 0 in
  let run := with_statement E body s in
  (exists rq, requests (log (snd run)) = requests (log sb) ++ [rq] /\
              is_control_call (transaction_url E sb) commit_payload rq) /\
  released (snd run) /\
  (status_code rc = 200 -> json_body rc <> None -> fst run = r) /\
  (status_code rc <> 200 ->
   fst run = Raises (RESTAPIError rc (debug sb))) /\
  (status_code rc = 200 -> json_body rc = None ->
   fst run = Raises JSONDecodeError).
Proof.
  intros HG Henter Hbody Hr Hv rc run.
  destruct (transaction_commit_run E sb v HG Hv) as (sc & _ & Hcommit).
  cbv zeta in Hcommit. fold rc in Hcommit.
  destruct (control_call_sent sb sc (transaction_url E sb) commit_payload)
    as [Hq Hcall].
  set (sent := set_log (log sb ++
        [Http (mkRequest PATCH (transaction_url E sb)
                 (delete COORD (headers sc))
                 (Some (JObj commit_payload)) (timeout sc))])
        (set_headers (delete COORD (headers sc)) sc)) in *.
  assert (Hrel : released sent).
  { split; [apply lookup_delete_eq |].
    eexists. rewrite Hq. split; [apply last_snoc_request |].
    by destruct Hcall as (? & _ & ? & _). }
  assert (Hrun : run =
    (match r with
     | Returns a =>
         if (status_code rc =? 200)%Z
         then match decoded rc with
              | Returns _ => Returns a
              | Raises e => Raises e
              | OutOfFuel => OutOfFuel
              end
         else Raises (RESTAPIError rc (debug sb))
     | Raises e =>
         if (status_code rc =? 200)%Z
         then match decoded rc with
              | Returns _ => Raises e
              | Raises e' => Raises e'
              | OutOfFuel => OutOfFuel
              end
         else Raises (RESTAPIError rc (debug sb))
     | OutOfFuel => OutOfFuel
     end, sent)).
  { subst run. unfold with_statement, __enter__. rewrite Henter, Hbody.
    destruct r as [a | e |]; [| | done];
      unfold __exit__, bind; rewrite Hcommit;
      destruct (status_code rc =? 200)%Z; [| done | | done];
      destruct (decoded rc); done. }
  rewrite Hrun. cbn [fst snd].
  split; [eexists; split; [exact Hq | exact Hcall] |].
  split; [exact Hrel |].
  split; [| split].
  - intros H2 Hj. rewrite H2. cbn [Z.eqb Pos.eqb]. unfold decoded.
    destruct (json_body rc); [| done]. by destruct r.
  - intros H2. destruct (Z.eqb_spec (status_code rc) 200); [done |].
    by destruct r.
  - intros H2 Hj. rewrite H2. cbn [Z.eqb Pos.eqb]. unfold decoded.
    rewrite Hj. by destruct r.
Qed.

(** ** The methods run on a concrete device *)

(** C4 as stated fails: here a STANDARD creation is accepted and the
    finalize PUT is answered 202 with a body that is not JSON.  The code
    decodes the body of an accepted PUT to print it, so [task_start] ends
    with the decoder's exception after POST and PUT, and the GET is never
    sent. *)
Example task_start_put_body_must_decode :
  let E := Demo.env (Demo.script
             [Demo.reply 200 (Demo.standard_body "CREATED");
              mkResponse 202 "" None;
              Demo.reply 200 (Demo.standard_body "VALIDATING")]) in
  let run := task_start E "/mgmt/tm/task/cli/script" ∅ (Demo.fresh false) in
  fst run = Raises JSONDecodeError /\
  map req_method (requests (log (snd run))) = [POST; PUT].
Proof. cbv zeta. split; vm_compute; reflexivity. Qed.

(** C1: a poll answered with status 500 and the text "AsyncContext timeout".
    [task_wait] prints, sleeps for the interval and then raises
    [RESTAPIError] for that same response; the next poll, which would have
    found the task COMPLETED, is never sent. *)
Theorem task_wait_async_timeout_raises :
  let E := Demo.env (Demo.script
             [Demo.reply 200 (Demo.standard_body "STARTED");
              Demo.async_timeout;
              Demo.reply 200 (Demo.standard_body "COMPLETED")]) in
  let run := task_wait E 5 Demo.task42 10 (Demo.fresh false) in
  fst run = Raises (RESTAPIError Demo.async_timeout None) /\
  sleeps (log (snd run)) = [10; 10] /\
  length (requests (log (snd run))) = 2%nat.
Proof. cbv zeta. repeat split; vm_compute; reflexivity. Qed.

(** An interval [time.sleep] refuses ends [task_wait] at the first sleep:
    with a negative interval the call raises [ValueError] after one poll,
    although the next response would have been COMPLETED. *)
Example task_wait_negative_interval :
  let E := Demo.env (Demo.script
             [Demo.reply 200 (Demo.standard_body "STARTED");
              Demo.reply 200 (Demo.standard_body "COMPLETED")]) in
  let run := task_wait E 5 Demo.task42 (-1) (Demo.fresh false) in
  fst run = Raises ValueError /\
  sleeps (log (snd run)) = [] /\
  length (requests (log (snd run))) = 1%nat.
Proof. cbv zeta. repeat split; vm_compute; reflexivity. Qed.

(** C5 as stated fails: two runs of [task_start] that differ in the status
    of the finalize PUT alone (the POST is answered 200, the GET would be
    answered 200, the PUT has an empty body).  With status 202 the call
    fails with the decoder's exception; with status 500 it returns the
    task. *)
Lemma task_start_put_status_decides :
  let run (put_status : Z) :=
    fst (task_start
           (Demo.env (Demo.script
              [Demo.reply 200 (Demo.standard_body "CREATED");
               mkResponse put_status "" None;
               Demo.reply 200 (Demo.standard_body "VALIDATING")]))
           "/mgmt/tm/task/cli/script" ∅ (Demo.fresh false)) in
  run 202 = Raises JSONDecodeError /\
  run 500 =
    Returns (mkRESTObject (Demo.obj (Demo.standard_body "VALIDATING"))).
Proof. cbv zeta. split; vm_compute; reflexivity. Qed.

(** C2 as stated fails: here the body of the [with] statement raises, and
    the session is released all the same: the commit PATCH is the last
    request sent, the coordination header is removed, and the exception of
    the body is raised again afterwards. *)
Lemma with_statement_error_exit_releases :
  let E := Demo.env Demo.transaction_script in
  let run := with_statement E Demo.failing_body (Demo.fresh false) in
  fst run = Raises (OtherError "ValueError") /\
  map req_method (requests (log (snd run))) = [POST; PATCH] /\
  released (snd run).
Proof.
  cbv zeta. split; [vm_compute; reflexivity |].
  split; [vm_compute; reflexivity |].
  split; [vm_compute; reflexivity |].
  eexists. split; [vm_compute; reflexivity |].
  split; vm_compute; reflexivity.
Qed.

Lemma exist_by_status_witness :
  let E := Demo.env (Demo.script [Demo.reply 404 []]) in
  guard_transparent E /\
  fst (exist E "/mgmt/tm/ltm/pool/p1" (Demo.fresh true)) = Returns false.
Proof.
  cbv zeta. split; [apply Demo_guard_transparent |].
  destruct (exist_by_status (Demo.env (Demo.script [Demo.reply 404 []]))
              "/mgmt/tm/ltm/pool/p1" (Demo.fresh true)
              (Demo_guard_transparent _)) as (_ & H404 & _).
  apply H404. reflexivity.
Defined.

Lemma task_completed_spec_witness :
  let E := Demo.env (Demo.script
             [Demo.reply 200 (Demo.policy_body "COMPLETED")]) in
  guard_transparent E /\
  _get_path E Demo.task42 = inr "/mgmt/tm/task/42" /\
  fst (task_completed E Demo.task42 (Demo.fresh true)) = Returns true.
Proof.
  cbv zeta. split; [apply Demo_guard_transparent |].
  split; [vm_compute; reflexivity |].
  destruct (task_completed_spec
              (Demo.env (Demo.script
                 [Demo.reply 200 (Demo.policy_body "COMPLETED")]))
              Demo.task42 "/mgmt/tm/task/42" (Demo.fresh true)
              (Demo_guard_transparent _) eq_refl) as (_ & Hiff & _).
  apply Hiff. split; [reflexivity |].
  exists (JStr "COMPLETED"). split; vm_compute; reflexivity.
Defined.

Lemma task_result_spec_witness :
  let E := Demo.env (Demo.script
             [Demo.reply 200 [("commandResult", JStr "OK 5 items")]]) in
  guard_transparent E /\
  _get_path E Demo.task42 = inr "/mgmt/tm/task/42" /\
  fst (task_result E Demo.task42 (Demo.fresh true)) =
    Returns (JStr "OK 5 items").
Proof.
  cbv zeta. split; [apply Demo_guard_transparent |].
  split; [vm_compute; reflexivity |].
  destruct (task_result_spec
              (Demo.env (Demo.script
                 [Demo.reply 200 [("commandResult", JStr "OK 5 items")]]))
              Demo.task42 "/mgmt/tm/task/42" (Demo.fresh true)
              (Demo_guard_transparent _) eq_refl) as (_ & _ & H200).
  destruct (H200 eq_refl _ eq_refl) as [Hpresent _].
  apply Hpresent. vm_compute. reflexivity.
Defined.

Lemma task_start_requests_witness :
  let E := Demo.env (Demo.script
             [Demo.reply 201 (Demo.standard_body "CREATED");
              Demo.reply 500 [];
              Demo.reply 200 (Demo.standard_body "VALIDATING")]) in
  let P := Demo.env (Demo.script
             [Demo.reply 200 (Demo.policy_body "CREATED");
              Demo.reply 200 (Demo.policy_body "COMPLETED")]) in
  let s := Demo.fresh true in
  guard_transparent E /\
  guard_transparent P /\
  py_in (status_code (nth_response E s 0)) [200; 201] = true /\
  py_in (status_code (nth_response P s 0)) [200; 201] = true /\
  map req_method
    (requests (log (snd (task_start E "/mgmt/tm/task/cli/script" ∅ s)))) =
    [POST; PUT; GET] /\
  map req_method
    (requests
       (log (snd (task_start P "/mgmt/tm/asm/tasks/import-policy" ∅ s)))) =
    [POST; GET].
Proof.
  cbv zeta. split; [apply Demo_guard_transparent |].
  split; [apply Demo_guard_transparent |].
  split; [vm_compute; reflexivity |]. split; [vm_compute; reflexivity |].
  split.
  - destruct (task_start_requests
                (Demo.env (Demo.script
                   [Demo.reply 201 (Demo.standard_body "CREATED");
                    Demo.reply 500 [];
                    Demo.reply 200 (Demo.standard_body "VALIDATING")]))
                "/mgmt/tm/task/cli/script" ∅ (Demo.fresh true)
                (list_to_map (Demo.standard_body "CREATED"))
                (JStr "tm:task:cli-script:run") (JStr "7")
                (Demo_guard_transparent _) eq_refl eq_refl eq_refl)
      as (_ & Hstd & _).
    destruct Hstd as (hs & t & Hreq);
      [reflexivity | reflexivity | intros H; discriminate H |].
    rewrite Hreq. reflexivity.
  - destruct (task_start_requests
                (Demo.env (Demo.script
                   [Demo.reply 200 (Demo.policy_body "CREATED");
                    Demo.reply 200 (Demo.policy_body "COMPLETED")]))
                "/mgmt/tm/asm/tasks/import-policy" ∅ (Demo.fresh true)
                (list_to_map (Demo.policy_body "CREATED"))
                (JStr IMPORT_POLICY) (JStr "42")
                (Demo_guard_transparent _) eq_refl eq_refl eq_refl)
      as (Hpol & _).
    destruct Hpol as (hs & t & Hreq); [reflexivity | reflexivity |].
    rewrite Hreq. reflexivity.
Defined.

Lemma task_start_raises_iff_witness :
  let E := Demo.env (Demo.script
             [Demo.reply 200 (Demo.standard_body "CREATED");
              Demo.reply 500 [];
              Demo.reply 404 []]) in
  guard_transparent E /\
  created_well_formed (nth_response E (Demo.fresh true) 0) /\
  exists r d,
    fst (task_start E "/mgmt/tm/task/cli/script" ∅ (Demo.fresh true)) =
    Raises (RESTAPIError r d).
Proof.
  cbv zeta.
  assert (Hwf : created_well_formed
            (nth_response
               (Demo.env (Demo.script
                  [Demo.reply 200 (Demo.standard_body "CREATED");
                   Demo.reply 500 [];
                   Demo.reply 404 []])) (Demo.fresh true) 0)).
  { exists (list_to_map (Demo.standard_body "CREATED")),
           (JStr "tm:task:cli-script:run"), (JStr "7").
    split; [reflexivity |]. split; reflexivity. }
  split; [apply Demo_guard_transparent |]. split; [exact Hwf |].
  destruct (task_start_raises_iff
              (Demo.env (Demo.script
                 [Demo.reply 200 (Demo.standard_body "CREATED");
                  Demo.reply 500 [];
                  Demo.reply 404 []]))
              "/mgmt/tm/task/cli/script" ∅ (Demo.fresh true)
              (Demo_guard_transparent _) (fun _ => Hwf)) as [Hiff _].
  apply Hiff. right. split; reflexivity.
Defined.

Lemma task_wait_terminal_witness :
  let E := Demo.env (Demo.script
             [Demo.reply 200 (Demo.policy_body "STARTED");
              Demo.reply 200 (Demo.policy_body "STARTED");
              Demo.reply 200 (Demo.policy_body "COMPLETED")]) in
  guard_transparent E /\
  sleep_accepts 10 /\
  (forall i, (i < 2)%nat ->
     is_pending (nth_response E (Demo.fresh true) i) = true) /\
  fst (task_wait E 3 Demo.task42 10 (Demo.fresh true)) =
    Returns (mkRESTObject (Demo.obj (Demo.policy_body "COMPLETED"))).
Proof.
  cbv zeta.
  assert (Hpend : forall i, (i < 2)%nat ->
            is_pending (nth_response
              (Demo.env (Demo.script
                 [Demo.reply 200 (Demo.policy_body "STARTED");
                  Demo.reply 200 (Demo.policy_body "STARTED");
                  Demo.reply 200 (Demo.policy_body "COMPLETED")]))
              (Demo.fresh true) i) = true).
  { intros [| [| i]] Hi; [reflexivity | reflexivity | lia]. }
  assert (Hsleep : sleep_accepts 10)
    by (unfold sleep_accepts, SLEEP_MAX; lia).
  split; [apply Demo_guard_transparent |]. split; [exact Hsleep |].
  split; [exact Hpend |].
  destruct (task_wait_terminal
              (Demo.env (Demo.script
                 [Demo.reply 200 (Demo.policy_body "STARTED");
                  Demo.reply 200 (Demo.policy_body "STARTED");
                  Demo.reply 200 (Demo.policy_body "COMPLETED")]))
              Demo.task42 "/mgmt/tm/task/42" 10 2 3 (Demo.fresh true)
              (JStr "COMPLETED") (Demo_guard_transparent _) eq_refl Hpend
              (fun _ => Hsleep) eq_refl eq_refl (Nat.lt_succ_diag_r 2))
    as (Hdone & _).
  destruct (Hdone eq_refl) as (j & Hj & Hret).
  rewrite Hret. injection Hj as <-. reflexivity.
Defined.

Lemma kind_is_required_witness :
  let E := Demo.env (Demo.script
             [Demo.reply 200 (Demo.bare_body "VALIDATING")]) in
  guard_transparent E /\
  fst (task_start E "/mgmt/tm/task/cli/script" ∅ (Demo.fresh true)) =
    Raises (KeyError "kind") /\
  fst (task_completed E Demo.task42 (Demo.fresh true)) =
    Raises (KeyError "kind") /\
  fst (task_wait E 1 Demo.task42 10 (Demo.fresh true)) =
    Raises (KeyError "kind").
Proof.
  cbv zeta. split; [apply Demo_guard_transparent |].
  destruct (kind_is_required
              (Demo.env (Demo.script
                 [Demo.reply 200 (Demo.bare_body "VALIDATING")]))
              (Demo.fresh true) (Demo_guard_transparent _))
    as (Hstart & Hcompleted & Hwait).
  split; [| split].
  - apply (Hstart _ _ (list_to_map (Demo.bare_body "VALIDATING")));
      reflexivity.
  - apply (Hcompleted _ "/mgmt/tm/task/42"
             (list_to_map (Demo.bare_body "VALIDATING"))); reflexivity.
  - apply (Hwait _ "/mgmt/tm/task/42" 10 0%nat 1%nat
             (list_to_map (Demo.bare_body "VALIDATING")));
      [reflexivity | intros i Hi; lia | intros Hi; lia | lia
      | reflexivity ..].
Defined.

Lemma coordination_header_lifecycle_witness :
  let E := Demo.env Demo.transaction_script in
  let s0 := Demo.fresh true in
  let s1 := snd (transaction_create E s0) in
  let s2 := snd (transaction_validate E s1) in
  let s3 := snd (transaction_commit E s2) in
  guard_transparent E /\
  status_code (nth_response E s0 0) = 200 /\
  status_code (nth_response E s0 1) = 200 /\
  coordination s0 = None /\
  coordination s1 = Some "1389812351" /\
  coordination s2 = Some "1389812351" /\
  coordination s3 = None.
Proof.
  cbv zeta. split; [apply Demo_guard_transparent |].
  split; [reflexivity |]. split; [reflexivity |]. split; [reflexivity |].
  destruct (coordination_header_lifecycle (Demo.env Demo.transaction_script)
              (Demo.fresh true)
              (list_to_map [("transId", JNum 1389812351)])
              (JNum 1389812351) (Demo_guard_transparent _)
              eq_refl eq_refl eq_refl eq_refl)
    as (s1 & s2 & s3 & Hc & H1 & Hv & _ & H2 & Hcm & _ & H3).
  rewrite Hc. cbn [snd]. rewrite Hv. cbn [snd]. rewrite Hcm. cbn [snd].
  split; [rewrite H1; vm_compute; reflexivity |].
  split; [rewrite H2; vm_compute; reflexivity |]. exact H3.
Defined.

Lemma with_statement_commits_on_every_exit_witness :
  let E := Demo.env Demo.transaction_script in
  let s0 := Demo.fresh true in
  let t := mkRESTObject (Demo.obj [("transId", JNum 1389812351)]) in
  let s1 := snd (transaction_create E s0) in
  guard_transparent E /\
  transaction_create E s0 = (Returns t, s1) /\
  Demo.failing_body t s1 = (Raises (OtherError "ValueError"), s1) /\
  coordination s1 = Some "1389812351" /\
  fst (with_statement E Demo.failing_body s0) =
    Raises (OtherError "ValueError") /\
  released (snd (with_statement E Demo.failing_body s0)).
Proof.
  cbv zeta.
  assert (Hc : transaction_create (Demo.env Demo.transaction_script)
                 (Demo.fresh true) =
               (Returns (mkRESTObject
                           (Demo.obj [("transId", JNum 1389812351)])),
                snd (transaction_create (Demo.env Demo.transaction_script)
                       (Demo.fresh true))))
    by (vm_compute; reflexivity).
  assert (Hh : coordination
                 (snd (transaction_create (Demo.env Demo.transaction_script)
                         (Demo.fresh true))) = Some "1389812351")
    by (vm_compute; reflexivity).
  split; [apply Demo_guard_transparent |]. split; [exact Hc |].
  split; [reflexivity |]. split; [exact Hh |].
  destruct (with_statement_commits_on_every_exit
              (Demo.env Demo.transaction_script) unit Demo.failing_body
              (Demo.fresh true) _ _ _ _ _
              (Demo_guard_transparent _) Hc eq_refl
              ltac:(discriminate) Hh)
    as (_ & Hrel & H200 & _ & _).
  split; [apply H200; [reflexivity | discriminate] | exact Hrel].
Defined.

(** ** Further properties of the methods *)

(** *** What the task methods and [exist] leave alone *)

Lemma continues_refl (s : BIGIP) : continues s s.
Proof.
  repeat split. exists []. by rewrite app_nil_r.
Qed.

Lemma continues_trans (s1 s2 s3 : BIGIP) :
  continues s1 s2 -> continues s2 s3 -> continues s1 s3.
Proof.
  intros (Hd1 & Ht1 & Hc1 & evs1 & Hl1 & Ha1)
         (Hd2 & Ht2 & Hc2 & evs2 & Hl2 & Ha2).
  repeat split; [congruence .. |].
  exists (evs1 ++ evs2). split; [by rewrite Hl2, Hl1, app_assoc |].
  apply Forall_app. split; [done |]. by rewrite <- Hc1.
Qed.

Lemma kt_ret {A} (a : A) : keeps_transaction (ret a).
Proof. intros s. apply continues_refl. Qed.

Lemma kt_raise {A} (e : Exn) : keeps_transaction (raise e : M A).
Proof. intros s. apply continues_refl. Qed.

Lemma kt_bind {A B} (m : M A) (k : A -> M B) :
  keeps_transaction m -> (forall a, keeps_transaction (k a)) ->
  keeps_transaction (bind m k).
Proof.
  intros Hm Hk s. unfold bind. specialize (Hm s).
  destruct (m s) as [[a | e |] s1]; cbn [snd] in *; [| done | done].
  eapply continues_trans; [exact Hm | apply Hk].
Qed.

Lemma kt_get_self : keeps_transaction get_self.
Proof. intros s. apply continues_refl. Qed.

Lemma kt_emit (e : Event) :
  (forall c, tagged c e) -> keeps_transaction (emit e).
Proof.
  intros He s. repeat split. exists [e]. split; [done |].
  by repeat constructor.
Qed.

Lemma kt_session_request (E : Env) (m : Method) (url : string)
    (body : option json) :
  keeps_transaction (session_request E m url body).
Proof.
  intros s. repeat split. eexists. split; [reflexivity |].
  by repeat constructor.
Qed.

Lemma kt_check_auth (E : Env) :
  guard_transparent E -> keeps_transaction (check_auth E).
Proof.
  intros HG s. destruct (check_auth_ok E HG s) as (s1 & -> & Hl & Hd & Ht & Hh).
  cbn [snd]. repeat split; [done .. |].
  exists []. rewrite app_nil_r. by split.
Qed.

Lemma kt_response_json (r : Response) : keeps_transaction (response_json r).
Proof.
  intros s. unfold response_json, ret, raise.
  destruct (json_body r); apply continues_refl.
Qed.

Lemma kt_subscript (v : json) (key : string) :
  keeps_transaction (subscript v key).
Proof.
  intros s. unfold subscript, ret, raise.
  destruct v as [| | | | |m]; try apply continues_refl.
  destruct (m !! key); apply continues_refl.
Qed.

Lemma kt_json_field (r : Response) (key : string) :
  keeps_transaction (json_field r key).
Proof.
  apply kt_bind; [apply kt_response_json | intros j; apply kt_subscript].
Qed.

Lemma kt_lift_path (E : Env) (obj : RESTObject) :
  keeps_transaction (lift_path E obj).
Proof.
  intros s. unfold lift_path, ret, raise.
  destruct (_get_path E obj); apply continues_refl.
Qed.

Lemma kt_json_contains (key : string) (v : json) :
  keeps_transaction (json_contains key v).
Proof.
  intros s. unfold json_contains, ret, raise.
  destruct v; apply continues_refl.
Qed.

Lemma kt_sleep (interval : Z) : keeps_transaction (sleep interval).
Proof.
  unfold sleep. destruct (sleep_error interval);
    [apply kt_raise | apply kt_emit; intros c; exact I].
Qed.

(** Walks through a method built from the operations above. *)
Ltac keeps_step HG :=
  first
    [ apply kt_ret | apply kt_raise | apply kt_get_self
    | apply kt_session_request | apply (kt_check_auth _ HG)
    | apply kt_json_field | apply kt_response_json | apply kt_lift_path
    | apply kt_json_contains | apply kt_sleep
    | apply kt_emit; intros c; exact I
    | apply kt_bind; [| intros ?]
    | match goal with
      | |- keeps_transaction (if ?b then _ else _) => destruct b
      end ].

Lemma kt_task_wait_loop (E : Env) (url : string) (interval : Z) :
  guard_transparent E ->
  forall fuel, keeps_transaction (task_wait_loop E fuel url interval).
Proof.
  intros HG. induction fuel as [| fuel IH].
  - intros s. apply continues_refl.
  - cbn [task_wait_loop]. unfold print.
    repeat keeps_step HG. exact IH.
Qed.

(** X1: [task_start], [task_wait], [task_completed], [task_result] and
    [exist] never touch the transaction: whatever the device answers and
    however they end, the stored transaction id and the coordination header
    are as before, and every request they sent carried that coordination
    header (or none, when none was set). *)
Theorem task_methods_keep_transaction (E : Env) :
  guard_transparent E ->
  (forall path data, keeps_transaction (task_start E path data)) /\
  (forall fuel obj interval,
     keeps_transaction (task_wait E fuel obj interval)) /\
  (forall obj, keeps_transaction (task_completed E obj)) /\
  (forall obj, keeps_transaction (task_result E obj)) /\
  (forall path, keeps_transaction (exist E path)).
Proof.
  intros HG. split; [| split; [| split; [| split]]]; intros.
  - unfold task_start, print. cbv zeta. repeat keeps_step HG.
  - unfold task_wait. cbv zeta. repeat keeps_step HG.
    apply (kt_task_wait_loop E _ _ HG).
  - unfold task_completed. cbv zeta. repeat keeps_step HG.
  - unfold task_result. cbv zeta. repeat keeps_step HG.
  - unfold exist. cbv zeta. repeat keeps_step HG.
Qed.

Lemma task_methods_keep_transaction_witness :
  let E := Demo.env Demo.transaction_script in
  let s1 := snd (transaction_create E (Demo.fresh true)) in
  let run := exist E "/mgmt/tm/ltm/pool/p1" s1 in
  guard_transparent E /\
  coordination (snd run) = Some "1389812351" /\
  map (fun rq => req_headers rq !! COORD) (requests (log (snd run))) =
    [None; Some "1389812351"].
Proof.
  cbv zeta. split; [apply Demo_guard_transparent |].
  destruct (task_methods_keep_transaction (Demo.env Demo.transaction_script)
              (Demo_guard_transparent _)) as (_ & _ & _ & _ & Hexist).
  destruct (Hexist "/mgmt/tm/ltm/pool/p1"
              (snd (transaction_create (Demo.env Demo.transaction_script)
                      (Demo.fresh true)))) as (_ & _ & Hc & _).
  split; [rewrite Hc |]; vm_compute; reflexivity.
Defined.

(** *** Control calls without the coordination header *)

Lemma control_call_without_header (E : Env) (s : BIGIP) :
  guard_transparent E ->
  coordination s = None ->
  exists s1, same_core s s1 /\
    transaction_commit E s = (Raises (KeyError COORD), s1) /\
    transaction_validate E s = (Raises (KeyError COORD), s1).
Proof.
  intros HG Hc.
  destruct (check_auth_ok _ HG s) as (s1 & Hca & Hlog & Hdbg & Htr & Hhd).
  exists s1. split; [done |]. unfold coordination in Hc.
  split.
  - unfold transaction_commit. unfold bind at 1. rewrite Hca.
    unfold bind, get_self, headers_pop. by rewrite Hhd, Hc.
  - unfold transaction_validate. unfold bind at 1. rewrite Hca.
    unfold bind, get_self, headers_pop. by rewrite Hhd, Hc.
Qed.

(** X2: [transaction_commit] and [transaction_validate] called on a session
    whose coordination header is not set (no transaction was created, or it
    was committed) raise [KeyError] for the header name before anything is
    sent: the device receives no PATCH. *)
Theorem control_calls_need_header (E : Env) (s : BIGIP) :
  guard_transparent E ->
  coordination s = None ->
  (fst (transaction_commit E s) = Raises (KeyError COORD) /\
   requests (log (snd (transaction_commit E s))) = requests (log s)) /\
  (fst (transaction_validate E s) = Raises (KeyError COORD) /\
   requests (log (snd (transaction_validate E s))) = requests (log s)).
Proof.
  intros HG Hc.
  destruct (control_call_without_header E s HG Hc)
    as (s1 & (Hlog & _) & -> & ->).
  cbn [fst snd]. by rewrite Hlog.
Qed.

Lemma control_calls_need_header_witness :
  let E := Demo.env Demo.transaction_script in
  guard_transparent E /\
  coordination (Demo.fresh true) = None /\
  fst (transaction_commit E (Demo.fresh true)) =
    Raises (KeyError "X-F5-REST-Coordination-Id") /\
  requests (log (snd (transaction_validate E (Demo.fresh true)))) = [].
Proof.
  cbv zeta. split; [apply Demo_guard_transparent |]. split; [reflexivity |].
  destruct (control_calls_need_header (Demo.env Demo.transaction_script)
              (Demo.fresh true) (Demo_guard_transparent _) eq_refl)
    as [[Hc _] [_ Hv]].
  split; [exact Hc | exact Hv].
Defined.

(** X3: a [transaction_validate] that the device rejects (status other
    than 200) raises [RESTAPIError] and leaves the coordination header
    removed; a [transaction_commit] that follows raises [KeyError] and sends
    nothing, so the transaction can no longer be committed through the
    session. *)
Theorem rejected_validate_blocks_commit (E : Env) (s : BIGIP) (v : string) :
  guard_transparent E ->
  coordination s = Some v ->
  let r := nth_response E s 0 in
  let s1 := snd (transaction_validate E s) in
  status_code r <> 200 ->
  fst (transaction_validate E s) = Raises (RESTAPIError r (debug s)) /\
  coordination s1 = None /\
  fst (transaction_commit E s1) = Raises (KeyError COORD) /\
  requests (log (snd (transaction_commit E s1))) = requests (log s1).
Proof.
  intros HG Hv r s1 H2.
  destruct (transaction_validate_run E s v HG Hv) as (sa & _ & Hrun).
  cbv zeta in Hrun. fold r in Hrun.
  destruct (Z.eqb_spec (status_code r) 200) as [| _]; [done |].
  subst s1. rewrite Hrun. cbn [fst snd].
  split; [done |].
  assert (Hnone : coordination (set_log (log s ++
        [Http (mkRequest PATCH (transaction_url E s)
                 (delete COORD (headers sa))
                 (Some (JObj validate_payload)) (timeout sa))])
        (set_headers (delete COORD (headers sa)) sa)) = None)
    by apply lookup_delete_eq.
  split; [exact Hnone |].
  destruct (control_call_without_header E _ HG Hnone)
    as (sb & (Hlog & _) & -> & _).
  cbn [fst snd]. by rewrite Hlog.
Qed.

Lemma rejected_validate_blocks_commit_witness :
  let E := Demo.env (Demo.script
             [Demo.reply 200 [("transId", JNum 1389812351)];
              Demo.reply 400 [("message", JStr "transaction failed")]]) in
  let s0 := snd (transaction_create E (Demo.fresh true)) in
  let s1 := snd (transaction_validate E s0) in
  guard_transparent E /\
  coordination s0 = Some "1389812351" /\
  status_code (nth_response E s0 0) <> 200 /\
  coordination s1 = None /\
  fst (transaction_commit E s1) =
    Raises (KeyError "X-F5-REST-Coordination-Id").
Proof.
  cbv zeta.
  assert (Hc : coordination
            (snd (transaction_create
               (Demo.env (Demo.script
                  [Demo.reply 200 [("transId", JNum 1389812351)];
                   Demo.reply 400 [("message", JStr "transaction failed")]]))
               (Demo.fresh true))) = Some "1389812351")
    by (vm_compute; reflexivity).
  assert (Hst : status_code (nth_response
            (Demo.env (Demo.script
               [Demo.reply 200 [("transId", JNum 1389812351)];
                Demo.reply 400 [("message", JStr "transaction failed")]]))
            (snd (transaction_create
               (Demo.env (Demo.script
                  [Demo.reply 200 [("transId", JNum 1389812351)];
                   Demo.reply 400 [("message", JStr "transaction failed")]]))
               (Demo.fresh true))) 0) <> 200)
    by (vm_compute; discriminate).
  split; [apply Demo_guard_transparent |]. split; [exact Hc |].
  split; [exact Hst |].
  destruct (rejected_validate_blocks_commit _ _ _ (Demo_guard_transparent _)
              Hc Hst) as (_ & Hnone & Hcommit & _).
  split; [exact Hnone | exact Hcommit].
Defined.

(** X4: [transaction_commit] cannot be repeated: whatever the device
    answered to the first commit, a second [transaction_commit] (or a
    [transaction_validate]) raises [KeyError] and sends nothing. *)
Theorem commit_is_final (E : Env) (s : BIGIP) (v : string) :
  guard_transparent E ->
  coordination s = Some v ->
  let s1 := snd (transaction_commit E s) in
  (fst (transaction_commit E s1) = Raises (KeyError COORD) /\
   requests (log (snd (transaction_commit E s1))) = requests (log s1)) /\
  (fst (transaction_validate E s1) = Raises (KeyError COORD) /\
   requests (log (snd (transaction_validate E s1))) = requests (log s1)).
Proof.
  intros HG Hv s1.
  destruct (transaction_commit_run E s v HG Hv) as (sa & _ & Hrun).
  cbv zeta in Hrun. subst s1. rewrite Hrun. cbn [snd].
  assert (Hnone : coordination (set_log (log s ++
        [Http (mkRequest PATCH (transaction_url E s)
                 (delete COORD (headers sa))
                 (Some (JObj commit_payload)) (timeout sa))])
        (set_headers (delete COORD (headers sa)) sa)) = None)
    by apply lookup_delete_eq.
  destruct (control_call_without_header E _ HG Hnone)
    as (sb & (Hlog & _) & -> & ->).
  cbn [fst snd]. by rewrite Hlog.
Qed.

Lemma commit_is_final_witness :
  let E := Demo.env Demo.transaction_script in
  let s0 := snd (transaction_create E (Demo.fresh true)) in
  let s1 := snd (transaction_commit E s0) in
  guard_transparent E /\
  coordination s0 = Some "1389812351" /\
  fst (transaction_commit E s1) =
    Raises (KeyError "X-F5-REST-Coordination-Id").
Proof.
  cbv zeta.
  assert (Hc : coordination
            (snd (transaction_create (Demo.env Demo.transaction_script)
                    (Demo.fresh true))) = Some "1389812351")
    by (vm_compute; reflexivity).
  split; [apply Demo_guard_transparent |]. split; [exact Hc |].
  destruct (commit_is_final (Demo.env Demo.transaction_script) _ _
              (Demo_guard_transparent _) Hc)
    as [[Hcommit _] _].
  exact Hcommit.
Defined.

(** X5: a [transaction_validate] answered with status 200 sets the
    coordination header from the stored transaction id, whatever value the
    header had when it was removed, and leaves the stored id as it was. *)
Theorem validate_restores_stored_id (E : Env) (s : BIGIP) (v : string) :
  guard_transparent E ->
  coordination s = Some v ->
  status_code (nth_response E s 0) = 200 ->
  coordination (snd (transaction_validate E s)) =
    Some (py_str E (_transaction s)) /\
  _transaction (snd (transaction_validate E s)) = _transaction s.
Proof.
  intros HG Hv H2.
  destruct (transaction_validate_run E s v HG Hv)
    as (sa & (_ & _ & Htr & _) & Hrun).
  cbv zeta in Hrun. rewrite H2 in Hrun. cbn [Z.eqb Pos.eqb] in Hrun.
  rewrite Hrun. cbn [snd].
  split; [apply lookup_insert_eq | exact Htr].
Qed.

Lemma validate_restores_stored_id_witness :
  let E := Demo.env (Demo.script [Demo.reply 200 []]) in
  let s := mkBIGIP false None None 10 (JNum 5) {[ COORD := "stale" ]} [] in
  guard_transparent E /\
  coordination s = Some "stale" /\
  status_code (nth_response E s 0) = 200 /\
  coordination (snd (transaction_validate E s)) = Some "5".
Proof.
  cbv zeta.
  assert (Hv : coordination
            (mkBIGIP false None None 10 (JNum 5) {[ COORD := "stale" ]} []) =
            Some "stale") by (vm_compute; reflexivity).
  split; [apply Demo_guard_transparent |].
  split; [exact Hv |]. split; [reflexivity |].
  destruct (validate_restores_stored_id
              (Demo.env (Demo.script [Demo.reply 200 []]))
              (mkBIGIP false None None 10 (JNum 5) {[ COORD := "stale" ]} [])
              "stale" (Demo_guard_transparent _) Hv eq_refl) as [Hc _].
  rewrite Hc. vm_compute. reflexivity.
Defined.

(** *** [transaction_create] *)

Lemma transaction_create_failed (E : Env) (s : BIGIP) :
  guard_transparent E ->
  let r := nth_response E s 0 in
  exists s1, same_core s s1 /\
    let sent := set_log (log s ++
      [Http (request_of s1 POST (_get_url E "/mgmt/tm/transaction")
                        (Some (JObj ∅)))]) s1 in
    (status_code r <> 200 ->
     transaction_create E s = (Raises (RESTAPIError r (debug s)), sent)) /\
    (status_code r = 200 ->
     forall m, json_body r = Some (JObj m) -> m !! "transId" = None ->
     transaction_create E s = (Raises (KeyError "transId"), sent)).
Proof.
  intros HG r.
  destruct (check_auth_ok _ HG s) as (s1 & Hca & Hlog & Hdbg & Htr & Hhd).
  exists s1. split; [done |]. cbv zeta.
  assert (Hr0 : nth_response E s1 0 = r)
    by (unfold r, nth_response; by rewrite Hlog).
  split.
  - intros H2. unfold transaction_create. unfold bind at 1. rewrite Hca.
    unfold bind at 1, get_self at 1. rewrite session_request_run.
    rewrite Hr0, Hlog, Hdbg.
    destruct (Z.eqb_spec (status_code r) 200); [done | reflexivity].
  - intros H2 m Hb Hk. unfold transaction_create. unfold bind at 1.
    rewrite Hca. unfold bind at 1, get_self at 1.
    rewrite session_request_run. rewrite Hr0, Hlog, H2.
    cbn [Z.eqb Pos.eqb negb].
    by rewrite (json_field_missing r "transId" m).
Qed.

(** X6: a [transaction_create] that fails opens nothing: when the POST is
    answered with a status other than 200 it raises [RESTAPIError], and
    when a status-200 JSON object has no [transId] it raises [KeyError];
    either way one POST was sent and the stored transaction id and the
    coordination header are as before. *)
Theorem failed_create_opens_nothing (E : Env) (s : BIGIP) :
  guard_transparent E ->
  let r := nth_response E s 0 in
  let run := transaction_create E s in
  (status_code r <> 200 ->
   fst run = Raises (RESTAPIError r (debug s)) /\
   _transaction (snd run) = _transaction s /\
   coordination (snd run) = coordination s /\
   exists rq, requests (log (snd run)) = requests (log s) ++ [rq] /\
              req_method rq = POST /\
              req_url rq = _get_url E "/mgmt/tm/transaction") /\
  (status_code r = 200 ->
   forall m, json_body r = Some (JObj m) -> m !! "transId" = None ->
   fst run = Raises (KeyError "transId") /\
   _transaction (snd run) = _transaction s /\
   coordination (snd run) = coordination s /\
   exists rq, requests (log (snd run)) = requests (log s) ++ [rq] /\
              req_method rq = POST /\
              req_url rq = _get_url E "/mgmt/tm/transaction").
Proof.
  intros HG r run. subst run.
  destruct (transaction_create_failed E s HG)
    as (s1 & (_ & _ & Htr & Hhd) & Hrej & Hnoid).
  cbv zeta in Hrej, Hnoid. fold r in Hrej, Hnoid.
  split.
  - intros H2. rewrite (Hrej H2). cbn [fst snd].
    split; [done |]. split; [done |]. split; [done |].
    eexists. split; [apply requests_snoc | by split].
  - intros H2 m Hb Hk. rewrite (Hnoid H2 m Hb Hk). cbn [fst snd].
    split; [done |]. split; [done |]. split; [done |].
    eexists. split; [apply requests_snoc | by split].
Qed.

Lemma failed_create_opens_nothing_witness :
  let E := Demo.env (Demo.script [Demo.reply 401 []]) in
  let run := transaction_create E (Demo.fresh true) in
  guard_transparent E /\
  status_code (nth_response E (Demo.fresh true) 0) <> 200 /\
  coordination (snd run) = None /\
  _transaction (snd run) = JNull.
Proof.
  cbv zeta. split; [apply Demo_guard_transparent |].
  assert (Hst : status_code (nth_response
             (Demo.env (Demo.script [Demo.reply 401 []]))
             (Demo.fresh true) 0) <> 200) by (vm_compute; discriminate).
  split; [exact Hst |].
  destruct (failed_create_opens_nothing
              (Demo.env (Demo.script [Demo.reply 401 []]))
              (Demo.fresh true) (Demo_guard_transparent _)) as [Hrej _].
  destruct (Hrej Hst) as (_ & Htr & Hc & _).
  split; [exact Hc | exact Htr].
Defined.

(** X7: there is no nesting: a [transaction_create] called while a
    transaction is open sends its POST with the coordination header of the
    open transaction, and on success replaces the stored id and the header
    by those of the new transaction. *)
Theorem create_replaces_open_transaction (E : Env) (s : BIGIP)
    (m : gmap string json) (tid : json) (v : string) :
  guard_transparent E ->
  coordination s = Some v ->
  let r := nth_response E s 0 in
  let run := transaction_create E s in
  status_code r = 200 ->
  json_body r = Some (JObj m) ->
  m !! "transId" = Some tid ->
  (exists rq, requests (log (snd run)) = requests (log s) ++ [rq] /\
              req_method rq = POST /\
              req_headers rq !! COORD = Some v) /\
  _transaction (snd run) = tid /\
  coordination (snd run) = Some (py_str E tid).
Proof.
  intros HG Hv r run H2 Hb Htid. subst run.
  destruct (transaction_create_run E s m tid HG H2 Hb Htid)
    as (s1 & (_ & _ & _ & Hhd) & ->).
  cbn [snd]. split; [| split; [reflexivity | apply lookup_insert_eq]].
  eexists. split; [apply requests_snoc |]. split; [reflexivity |].
  cbn [request_of req_headers]. by rewrite Hhd.
Qed.

Lemma create_replaces_open_transaction_witness :
  let E := Demo.env (Demo.script
             [Demo.reply 200 [("transId", JNum 1)];
              Demo.reply 200 [("transId", JNum 2)]]) in
  let s1 := snd (transaction_create E (Demo.fresh true)) in
  let s2 := snd (transaction_create E s1) in
  guard_transparent E /\
  coordination s1 = Some "1" /\
  status_code (nth_response E s1 0) = 200 /\
  coordination s2 = Some "2" /\ _transaction s2 = JNum 2.
Proof.
  cbv zeta.
  assert (Hc : coordination
            (snd (transaction_create
               (Demo.env (Demo.script
                  [Demo.reply 200 [("transId", JNum 1)];
                   Demo.reply 200 [("transId", JNum 2)]]))
               (Demo.fresh true))) = Some "1") by (vm_compute; reflexivity).
  split; [apply Demo_guard_transparent |]. split; [exact Hc |].
  split; [vm_compute; reflexivity |].
  destruct (create_replaces_open_transaction
              (Demo.env (Demo.script
                 [Demo.reply 200 [("transId", JNum 1)];
                  Demo.reply 200 [("transId", JNum 2)]])) _
              (list_to_map [("transId", JNum 2)]) (JNum 2) "1"
              (Demo_guard_transparent _) Hc)
    as (_ & Htr & Hc2);
    [vm_compute; reflexivity | vm_compute; reflexivity
    | vm_compute; reflexivity |].
  split; [rewrite Hc2; vm_compute; reflexivity | exact Htr].
Defined.

(** *** The [with] statement: entering fails, or the header is lost *)

(** X8: when [transaction_create] is rejected on entering a [with]
    statement, the statement raises its [RESTAPIError] and does nothing
    else: the body is not run and no commit is attempted, so the session is
    left as [transaction_create] left it, with one POST sent. *)
Theorem with_statement_enter_fails (E : Env) (A : Type)
    (body : RESTObject -> M A) (s : BIGIP) :
  guard_transparent E ->
  let r := nth_response E s 0 in
  let run := with_statement E body s in
  status_code r <> 200 ->
  fst run = Raises (RESTAPIError r (debug s)) /\
  snd run = snd (transaction_create E s) /\
  (exists rq, requests (log (snd run)) = requests (log s) ++ [rq] /\
              req_method rq = POST /\
              req_url rq = _get_url E "/mgmt/tm/transaction") /\
  coordination (snd run) = coordination s.
Proof.
  intros HG r run H2. subst run.
  destruct (transaction_create_failed E s HG)
    as (s1 & (_ & _ & _ & Hhd) & Hrej & _).
  cbv zeta in Hrej. fold r in Hrej. specialize (Hrej H2).
  unfold with_statement, __enter__. rewrite Hrej. cbn [fst snd].
  split; [done |]. split; [done |]. split; [| done].
  eexists. split; [apply requests_snoc | by split].
Qed.

Lemma with_statement_enter_fails_witness :
  let E := Demo.env (Demo.script [Demo.reply 503 []]) in
  let run := with_statement E Demo.failing_body (Demo.fresh true) in
  guard_transparent E /\
  status_code (nth_response E (Demo.fresh true) 0) <> 200 /\
  fst run = Raises (RESTAPIError (Demo.reply 503 []) None) /\
  map req_method (requests (log (snd run))) = [POST].
Proof.
  cbv zeta.
  assert (Hst : status_code (nth_response
             (Demo.env (Demo.script [Demo.reply 503 []]))
             (Demo.fresh true) 0) <> 200) by (vm_compute; discriminate).
  split; [apply Demo_guard_transparent |]. split; [exact Hst |].
  destruct (with_statement_enter_fails
              (Demo.env (Demo.script [Demo.reply 503 []])) unit
              Demo.failing_body (Demo.fresh true)
              (Demo_guard_transparent _) Hst)
    as (Hout & _ & (rq & Hreq & Hm & _) & _).
  split; [exact Hout |]. rewrite Hreq.
  change (requests (log (Demo.fresh true))) with (@nil Request).
  cbn [map app]. by rewrite Hm.
Defined.

(** X9: when the body of a [with] statement ends without the coordination
    header (it committed by itself, or a validate of its own was rejected),
    the commit of [__exit__] raises [KeyError] before sending anything, and
    the statement ends with that [KeyError] whether the body returned or
    raised. *)
Theorem with_statement_header_lost (E : Env) (A : Type)
    (body : RESTObject -> M A) (s s1 sb : BIGIP) (t : RESTObject)
    (r : Outcome A) :
  guard_transparent E ->
  transaction_create E s = (Returns t, s1) ->
  body t s1 = (r, sb) ->
  r <> OutOfFuel ->
  coordination sb = None ->
  let run := with_statement E body s in
  fst run = Raises (KeyError COORD) /\
  requests (log (snd run)) = requests (log sb).
Proof.
  intros HG Henter Hbody Hr Hnone run. subst run.
  destruct (control_call_without_header E sb HG Hnone)
    as (sc & (Hlog & _) & Hcommit & _).
  unfold with_statement, __enter__. rewrite Henter, Hbody.
  destruct r as [a | e |]; [| | done];
    unfold __exit__, bind; rewrite Hcommit; cbn [fst snd];
    by rewrite Hlog.
Qed.

Lemma with_statement_header_lost_witness :
  let E := Demo.env Demo.transaction_script in
  let s0 := Demo.fresh true in
  let run := with_statement E (Demo.committing_body E) s0 in
  guard_transparent E /\
  fst (transaction_create E s0) =
    Returns (mkRESTObject (Demo.obj [("transId", JNum 1389812351)])) /\
  fst run = Raises (KeyError "X-F5-REST-Coordination-Id") /\
  map req_method (requests (log (snd run))) = [POST; PATCH].
Proof.
  cbv zeta. split; [apply Demo_guard_transparent |].
  split; [vm_compute; reflexivity |].
  assert (Hc : transaction_create (Demo.env Demo.transaction_script)
                 (Demo.fresh true) =
               (Returns (mkRESTObject
                           (Demo.obj [("transId", JNum 1389812351)])),
                snd (transaction_create (Demo.env Demo.transaction_script)
                       (Demo.fresh true))))
    by (vm_compute; reflexivity).
  assert (Hb : Demo.committing_body (Demo.env Demo.transaction_script)
                 (mkRESTObject (Demo.obj [("transId", JNum 1389812351)]))
                 (snd (transaction_create (Demo.env Demo.transaction_script)
                         (Demo.fresh true))) =
               (Returns tt,
                snd (transaction_commit (Demo.env Demo.transaction_script)
                       (snd (transaction_create
                               (Demo.env Demo.transaction_script)
                               (Demo.fresh true))))))
    by (vm_compute; reflexivity).
  destruct (with_statement_header_lost
              (Demo.env Demo.transaction_script) unit
              (Demo.committing_body (Demo.env Demo.transaction_script))
              (Demo.fresh true) _ _ _ _
              (Demo_guard_transparent _) Hc Hb ltac:(discriminate)
              ltac:(vm_compute; reflexivity)) as [Hout Hreq].
  split; [exact Hout |]. rewrite Hreq. vm_compute. reflexivity.
Defined.

(** *** More on [task_wait] *)

Lemma prefix_append (n post : string) : String.prefix n (n +:+ post) = true.
Proof.
  induction n as [| a n IH].
  - change ("" +:+ post) with post. by destruct post.
  - change (String a n +:+ post) with (String a (n +:+ post)).
    cbn [String.prefix]. destruct (Ascii.ascii_dec a a); [exact IH | done].
Qed.

Lemma prefix_inv (n h : string) :
  String.prefix n h = true -> exists post, h = n +:+ post.
Proof.
  revert h. induction n as [| a n IH]; intros h Hp.
  - by exists h.
  - destruct h as [| b h]; [discriminate |]. simpl in Hp.
    destruct (Ascii.ascii_dec a b) as [-> |]; [| discriminate].
    destruct (IH h Hp) as [post ->]. by exists post.
Qed.

Lemma contains_unfold (n h : string) :
  contains n h =
  String.prefix n h ||
  match h with
  | EmptyString => false
  | String _ rest => contains n rest
  end.
Proof. destruct h; reflexivity. Qed.

(** [contains] is the substring test. *)
Lemma contains_spec (n h : string) :
  contains n h = true <-> exists pre post, h = pre +:+ n +:+ post.
Proof.
  split.
  - induction h as [| b h IH]; rewrite contains_unfold; intros Hc.
    + apply orb_true_iff in Hc as [Hp | Hp]; [| discriminate].
      destruct (prefix_inv _ _ Hp) as [post ->]. by exists "", post.
    + apply orb_true_iff in Hc as [Hp | Hr].
      * destruct (prefix_inv _ _ Hp) as [post ->]. by exists "", post.
      * destruct (IH Hr) as (pre & post & ->). by exists (String b pre), post.
  - intros (pre & post & ->). induction pre as [| b pre IH].
    + rewrite contains_unfold. change ("" +:+ n +:+ post) with (n +:+ post).
      by rewrite prefix_append.
    + rewrite contains_unfold. apply orb_true_iff. right. exact IH.
Qed.

(** X10: the loop of [task_wait] has no bound of its own: as long as the
    responses are pending, and the interval is one [time.sleep] accepts, it
    neither returns nor raises; after [n] pending responses it has sent [n]
    polls and slept [n] times and is still in the loop ([n] iterations of
    fuel are used up). *)
Theorem task_wait_polls_while_pending (E : Env) (obj : RESTObject)
    (path : string) (interval : Z) (n : nat) (s : BIGIP) :
  guard_transparent E ->
  _get_path E obj = inr path ->
  (forall i, (i < n)%nat -> is_pending (nth_response E s i) = true) ->
  ((0 < n)%nat -> sleep_accepts interval) ->
  let run := task_wait E n obj interval s in
  fst run = OutOfFuel /\
  length (requests (log (snd run))) = (length (requests (log s)) + n)%nat /\
  sleeps (log (snd run)) = sleeps (log s) ++ repeat interval n.
Proof.
  intros HG Hpath Hpend Hsleep run. subst run.
  destruct (check_auth_ok _ HG s) as (s1 & Hca & Hlog & _).
  destruct (wait_loop_pending E (_get_url E path) interval n HG Hsleep s1)
    as (s2 & polls & Hrun & Hrq & Hlen & _ & Hsl & _).
  { intros i Hi. unfold nth_response. rewrite Hlog. by apply Hpend. }
  specialize (Hrun 0%nat). rewrite Nat.add_0_r in Hrun.
  assert (Hwait : task_wait E n obj interval s = (OutOfFuel, s2)).
  { unfold task_wait, bind at 1. rewrite Hca.
    unfold bind at 1, lift_path. rewrite Hpath. unfold ret at 1.
    by rewrite Hrun. }
  rewrite Hwait. cbn [fst snd].
  rewrite Hrq, Hsl, Hlog, length_app, Hlen. done.
Qed.

Lemma task_wait_polls_while_pending_witness :
  let E := Demo.env (fun _ => Demo.reply 200 (Demo.standard_body "STARTED")) in
  guard_transparent E /\
  sleep_accepts 10 /\
  (forall i, (i < 4)%nat ->
     is_pending (nth_response E (Demo.fresh true) i) = true) /\
  fst (task_wait E 4 Demo.task42 10 (Demo.fresh true)) = OutOfFuel.
Proof.
  cbv zeta.
  assert (Hpend : forall i, (i < 4)%nat ->
            is_pending (nth_response
              (Demo.env (fun _ =>
                 Demo.reply 200 (Demo.standard_body "STARTED")))
              (Demo.fresh true) i) = true) by (intros i _; reflexivity).
  assert (Hsleep : sleep_accepts 10)
    by (unfold sleep_accepts, SLEEP_MAX; lia).
  split; [apply Demo_guard_transparent |]. split; [exact Hsleep |].
  split; [exact Hpend |].
  destruct (task_wait_polls_while_pending
              (Demo.env (fun _ =>
                 Demo.reply 200 (Demo.standard_body "STARTED")))
              Demo.task42 "/mgmt/tm/task/42" 10 4 (Demo.fresh true)
              (Demo_guard_transparent _) eq_refl Hpend (fun _ => Hsleep))
    as [Hout _].
  exact Hout.
Defined.

(** X11: a poll answered with a status other than 200 that is not the
    announced transient condition ends [task_wait] at once: it raises
    [RESTAPIError] for that response without sleeping on it and without
    polling again.  The response may be any one reached through pending
    responses, slept on with an interval [time.sleep] accepts. *)
Theorem task_wait_bad_status (E : Env) (obj : RESTObject) (path : string)
    (interval : Z) (n fuel : nat) (s : BIGIP) :
  guard_transparent E ->
  _get_path E obj = inr path ->
  (forall i, (i < n)%nat -> is_pending (nth_response E s i) = true) ->
  ((0 < n)%nat -> sleep_accepts interval) ->
  let r := nth_response E s n in
  let run := task_wait E fuel obj interval s in
  status_code r <> 200 ->
  is_transient r = false ->
  (n < fuel)%nat ->
  fst run = Raises (RESTAPIError r (debug s)) /\
  sleeps (log (snd run)) = sleeps (log s) ++ repeat interval n /\
  length (requests (log (snd run))) =
    (length (requests (log s)) + S n)%nat.
Proof.
  intros HG Hpath Hpend Hsleep r run H2 Htr Hfuel. subst run.
  destruct (task_wait_reaches E obj path interval n fuel s HG Hpath Hpend
              Hsleep Hfuel)
    as (s2 & s3 & polls & _ & Hd & Hrq & Hlen & _ & Hsl & ->).
  fold r. unfold wait_iteration. rewrite Htr, Hd.
  destruct (Z.eqb_spec (status_code r) 200) as [| _]; [done |].
  cbn [negb fst snd log set_log].
  rewrite sleeps_app, requests_snoc, Hsl, Hrq, !length_app, Hlen.
  cbn [sleeps omap list_omap length]. rewrite app_nil_r.
  split; [done |]. split; [done | lia].
Qed.

Lemma task_wait_bad_status_witness :
  let E := Demo.env (Demo.script
             [Demo.reply 200 (Demo.standard_body "STARTED");
              mkResponse 500 "Internal Server Error" None]) in
  guard_transparent E /\
  sleep_accepts 10 /\
  (forall i, (i < 1)%nat ->
     is_pending (nth_response E (Demo.fresh true) i) = true) /\
  status_code (nth_response E (Demo.fresh true) 1) <> 200 /\
  is_transient (nth_response E (Demo.fresh true) 1) = false /\
  sleeps (log (snd (task_wait E 2 Demo.task42 10 (Demo.fresh true)))) = [10].
Proof.
  cbv zeta.
  assert (Hpend : forall i, (i < 1)%nat ->
            is_pending (nth_response
              (Demo.env (Demo.script
                 [Demo.reply 200 (Demo.standard_body "STARTED");
                  mkResponse 500 "Internal Server Error" None]))
              (Demo.fresh true) i) = true).
  { intros [| i] Hi; [reflexivity | lia]. }
  assert (Hst : status_code (nth_response
              (Demo.env (Demo.script
                 [Demo.reply 200 (Demo.standard_body "STARTED");
                  mkResponse 500 "Internal Server Error" None]))
              (Demo.fresh true) 1) <> 200) by (vm_compute; discriminate).
  assert (Hsleep : sleep_accepts 10)
    by (unfold sleep_accepts, SLEEP_MAX; lia).
  split; [apply Demo_guard_transparent |]. split; [exact Hsleep |].
  split; [exact Hpend |].
  split; [exact Hst |]. split; [vm_compute; reflexivity |].
  destruct (task_wait_bad_status
              (Demo.env (Demo.script
                 [Demo.reply 200 (Demo.standard_body "STARTED");
                  mkResponse 500 "Internal Server Error" None]))
              Demo.task42 "/mgmt/tm/task/42" 10 1 2 (Demo.fresh true)
              (Demo_guard_transparent _) eq_refl Hpend (fun _ => Hsleep) Hst
              ltac:(vm_compute; reflexivity) (Nat.lt_succ_diag_r 1))
    as (_ & Hsl & _).
  exact Hsl.
Defined.

(** X12: whenever a poll is answered with status 500 and a text that has
    "AsyncContext timeout" somewhere in it, [task_wait], called with an
    interval [time.sleep] accepts, sleeps once more for the interval and
    then raises [RESTAPIError] for that response; it does not poll again. *)
Theorem task_wait_transient_sleeps_then_raises (E : Env) (obj : RESTObject)
    (path : string) (interval : Z) (n fuel : nat) (s : BIGIP)
    (pre post : string) :
  guard_transparent E ->
  _get_path E obj = inr path ->
  (forall i, (i < n)%nat -> is_pending (nth_response E s i) = true) ->
  sleep_accepts interval ->
  let r := nth_response E s n in
  let run := task_wait E fuel obj interval s in
  status_code r = 500 ->
  text r = pre +:+ "AsyncContext timeout" +:+ post ->
  (n < fuel)%nat ->
  fst run = Raises (RESTAPIError r (debug s)) /\
  sleeps (log (snd run)) = sleeps (log s) ++ repeat interval (S n) /\
  length (requests (log (snd run))) =
    (length (requests (log s)) + S n)%nat.
Proof.
  intros HG Hpath Hpend Hsleep r run H5 Htext Hfuel.
  apply (task_wait_transient_raises E obj path interval n fuel s HG Hpath
           Hpend Hsleep); [| exact Hfuel].
  fold r. unfold is_transient. rewrite H5. cbn [Z.eqb Pos.eqb andb].
  apply contains_spec. eauto.
Qed.

Lemma task_wait_transient_sleeps_then_raises_witness :
  let E := Demo.env (Demo.script [Demo.async_timeout]) in
  guard_transparent E /\
  sleep_accepts 30 /\
  status_code (nth_response E (Demo.fresh true) 0) = 500 /\
  text (nth_response E (Demo.fresh true) 0) =
    "java.util.concurrent.TimeoutException: " +:+ "AsyncContext timeout"
    +:+ "" /\
  sleeps (log (snd (task_wait E 1 Demo.task42 30 (Demo.fresh true)))) = [30].
Proof.
  cbv zeta.
  assert (Hsleep : sleep_accepts 30)
    by (unfold sleep_accepts, SLEEP_MAX; lia).
  split; [apply Demo_guard_transparent |]. split; [exact Hsleep |].
  split; [reflexivity |]. split; [reflexivity |].
  destruct (task_wait_transient_sleeps_then_raises
              (Demo.env (Demo.script [Demo.async_timeout]))
              Demo.task42 "/mgmt/tm/task/42" 30 0 1 (Demo.fresh true)
              "java.util.concurrent.TimeoutException: " ""
              (Demo_guard_transparent _) eq_refl
              ltac:(intros i Hi; lia) Hsleep eq_refl eq_refl
              (Nat.lt_succ_diag_r 0))
    as (_ & Hsl & _).
  exact Hsl.
Defined.

(** *** More on [task_completed], the state fields and [task_start] *)

(** X13: [task_completed] returns [False] exactly on the responses on
    which [task_wait] would poll again: status 200 with an extracted state
    that is neither FAILURE nor COMPLETED. *)
Theorem task_completed_false_iff_pending (E : Env) (obj : RESTObject)
    (path : string) (s : BIGIP) :
  guard_transparent E ->
  _get_path E obj = inr path ->
  fst (task_completed E obj s) = Returns false <->
  is_pending (nth_response E s 0) = true.
Proof.
  intros HG Hpath. rewrite (task_completed_run E obj path s HG Hpath).
  unfold is_pending.
  destruct (status_code (nth_response E s 0) =? 200)%Z; cbn [negb andb];
    [| done].
  destruct (spec_task_state (nth_response E s 0)) as [st |]; [| done].
  destruct (json_eq_str st "FAILURE"); cbn [negb andb]; [done |].
  destruct (json_eq_str st "COMPLETED"); cbn [negb]; split; congruence.
Qed.

Lemma task_completed_false_iff_pending_witness :
  let E := Demo.env (Demo.script
             [Demo.reply 200 (Demo.standard_body "VALIDATING")]) in
  guard_transparent E /\
  _get_path E Demo.task42 = inr "/mgmt/tm/task/42" /\
  fst (task_completed E Demo.task42 (Demo.fresh true)) = Returns false.
Proof.
  cbv zeta. split; [apply Demo_guard_transparent |].
  split; [vm_compute; reflexivity |].
  apply (task_completed_false_iff_pending
           (Demo.env (Demo.script
              [Demo.reply 200 (Demo.standard_body "VALIDATING")]))
           Demo.task42 "/mgmt/tm/task/42" (Demo.fresh true)
           (Demo_guard_transparent _) eq_refl).
  reflexivity.
Defined.

(** X14: the field the state is read from follows [kind] alone: on a
    status-200 object of kind import-policy without [state], and on one of
    any other kind without [_taskState], [task_completed] and [task_wait]
    raise [KeyError] for that field, even when the field of the other
    schema is there. *)
Theorem state_field_follows_kind (E : Env) (obj : RESTObject)
    (path : string) (s : BIGIP) (m : gmap string json) (kind : json) :
  guard_transparent E ->
  _get_path E obj = inr path ->
  let r := nth_response E s 0 in
  let field :=
    if json_eq_str kind IMPORT_POLICY then "state" else "_taskState" in
  status_code r = 200 ->
  json_body r = Some (JObj m) ->
  m !! "kind" = Some kind ->
  m !! field = None ->
  fst (task_completed E obj s) = Raises (KeyError field) /\
  forall fuel interval,
    (0 < fuel)%nat ->
    fst (task_wait E fuel obj interval s) = Raises (KeyError field).
Proof.
  intros HG Hpath r field H2 Hb Hk Hf.
  assert (Hst : spec_task_state r = None /\
                state_error r = KeyError field).
  { unfold spec_task_state, state_error. rewrite Hb, Hk. subst field.
    destruct (json_eq_str kind IMPORT_POLICY); by rewrite Hf. }
  destruct Hst as [Hst Herr].
  assert (Htr : is_transient r = false)
    by (unfold is_transient; by rewrite H2).
  split.
  - rewrite (task_completed_run E obj path s HG Hpath). fold r.
    by rewrite H2, Hst, Herr.
  - intros fuel interval Hfuel.
    destruct (task_wait_reaches E obj path interval 0 fuel s HG Hpath
                ltac:(intros i Hi; lia) ltac:(intros Hi; lia) Hfuel)
      as (s2 & s3 & polls & _ & _ & _ & _ & _ & _ & ->).
    fold r. unfold wait_iteration. by rewrite Htr, H2, Hst, Herr.
Qed.

Lemma state_field_follows_kind_witness :
  let E := Demo.env (Demo.script
             [Demo.reply 200 [("kind", JStr IMPORT_POLICY);
                              ("id", JStr "42");
                              ("_taskState", JStr "COMPLETED")]]) in
  guard_transparent E /\
  _get_path E Demo.task42 = inr "/mgmt/tm/task/42" /\
  status_code (nth_response E (Demo.fresh true) 0) = 200 /\
  fst (task_completed E Demo.task42 (Demo.fresh true)) =
    Raises (KeyError "state").
Proof.
  cbv zeta. split; [apply Demo_guard_transparent |].
  split; [vm_compute; reflexivity |]. split; [reflexivity |].
  destruct (state_field_follows_kind
              (Demo.env (Demo.script
                 [Demo.reply 200 [("kind", JStr IMPORT_POLICY);
                                  ("id", JStr "42");
                                  ("_taskState", JStr "COMPLETED")]]))
              Demo.task42 "/mgmt/tm/task/42" (Demo.fresh true)
              (list_to_map [("kind", JStr IMPORT_POLICY);
                            ("id", JStr "42");
                            ("_taskState", JStr "COMPLETED")])
              (JStr IMPORT_POLICY)
              (Demo_guard_transparent _) eq_refl eq_refl eq_refl eq_refl
              ltac:(vm_compute; reflexivity)) as [Hcompleted _].
  exact Hcompleted.
Defined.

Lemma task_start_no_id (E : Env) (path : string) (data : gmap string json)
    (s : BIGIP) (m : gmap string json) (kind : json) :
  guard_transparent E ->
  let r0 := nth_response E s 0 in
  let field := if json_eq_str kind IMPORT_POLICY then "id" else "_taskId" in
  py_in (status_code r0) [200; 201] = true ->
  json_body r0 = Some (JObj m) ->
  m !! "kind" = Some kind ->
  m !! field = None ->
  exists s1, same_core s s1 /\
    task_start E path data s =
    (Raises (KeyError field),
     set_log (log s ++
       [Http (request_of s1 POST (_get_url E path) (Some (JObj data)))]) s1).
Proof.
  intros HG r0 field Hst Hbody Hkind Hf.
  destruct (check_auth_ok _ HG s) as (s1 & Hca & Hlog & Hdbg & Htr & Hhd).
  exists s1. split; [done |].
  unfold task_start. unfold bind at 1. rewrite Hca.
  unfold bind at 1, get_self at 1. rewrite session_request_run.
  assert (Hr0 : nth_response E s1 0 = r0)
    by (unfold r0, nth_response; by rewrite Hlog).
  rewrite Hr0, Hst, Hlog. cbn [negb].
  rewrite (json_field_run r0 "kind" m kind) by done.
  subst field. unfold bind at 1.
  destruct (json_eq_str kind IMPORT_POLICY);
    by rewrite (json_field_missing r0 _ m).
Qed.

(** X15: [task_start] stops after the POST, with nothing else sent, when
    the POST is rejected ([RESTAPIError]) and when the accepted body lacks
    the id field of its schema ([KeyError] for [id] on kind import-policy,
    for [_taskId] otherwise): no PUT and no GET go out. *)
Theorem task_start_stops_after_post (E : Env) (path : string)
    (data : gmap string json) (s : BIGIP) :
  guard_transparent E ->
  let r0 := nth_response E s 0 in
  let run := task_start E path data s in
  (py_in (status_code r0) [200; 201] = false ->
   fst run = Raises (RESTAPIError r0 (debug s)) /\
   exists rq, requests (log (snd run)) = requests (log s) ++ [rq] /\
              req_method rq = POST) /\
  (py_in (status_code r0) [200; 201] = true ->
   forall m kind,
     json_body r0 = Some (JObj m) ->
     m !! "kind" = Some kind ->
     let field :=
       if json_eq_str kind IMPORT_POLICY then "id" else "_taskId" in
     m !! field = None ->
     fst run = Raises (KeyError field) /\
     exists rq, requests (log (snd run)) = requests (log s) ++ [rq] /\
                req_method rq = POST).
Proof.
  intros HG r0 run. subst run. split.
  - intros Hst.
    destruct (task_start_rejected E path data s HG Hst) as (s1 & _ & ->).
    cbn [fst snd log set_log]. split; [done |].
    eexists. split; [apply requests_snoc | done].
  - intros Hst m kind Hb Hk field Hf.
    destruct (task_start_no_id E path data s m kind HG Hst Hb Hk Hf)
      as (s1 & _ & ->).
    cbn [fst snd log set_log]. split; [done |].
    eexists. split; [apply requests_snoc | done].
Qed.

Lemma task_start_stops_after_post_witness :
  let E := Demo.env (Demo.script
             [Demo.reply 200 [("kind", JStr IMPORT_POLICY);
                              ("_taskId", JStr "7")]]) in
  let run := task_start E "/mgmt/tm/asm/tasks/import-policy" ∅
                        (Demo.fresh true) in
  guard_transparent E /\
  py_in (status_code (nth_response E (Demo.fresh true) 0)) [200; 201] = true /\
  fst run = Raises (KeyError "id") /\
  map req_method (requests (log (snd run))) = [POST].
Proof.
  cbv zeta. split; [apply Demo_guard_transparent |].
  split; [reflexivity |].
  destruct (task_start_stops_after_post
              (Demo.env (Demo.script
                 [Demo.reply 200 [("kind", JStr IMPORT_POLICY);
                                  ("_taskId", JStr "7")]]))
              "/mgmt/tm/asm/tasks/import-policy" ∅ (Demo.fresh true)
              (Demo_guard_transparent _)) as [_ Hacc].
  destruct (Hacc eq_refl
              (list_to_map [("kind", JStr IMPORT_POLICY);
                            ("_taskId", JStr "7")])
              (JStr IMPORT_POLICY) eq_refl eq_refl
              ltac:(vm_compute; reflexivity)) as (Hout & rq & Hreq & Hm).
  split; [exact Hout |]. rewrite Hreq. cbn [map app requests].
  vm_compute in Hm |- *. by rewrite Hm.
Defined.

(** *** The guard and odd bodies *)




(** X17: [task_result] on a status-200 body that is not a JSON object: a
    body that does not decode raises the decoder's exception; a JSON array
    or string is searched by [in], giving the empty string when
    "commandResult" is not found in it and [TypeError] (from the
    subscript) when it is; null, booleans and numbers raise [TypeError]. *)
Theorem task_result_other_bodies (E : Env) (obj : RESTObject)
    (path : string) (s : BIGIP) :
  guard_transparent E ->
  _get_path E obj = inr path ->
  let r := nth_response E s 0 in
  let out := fst (task_result E obj s) in
  status_code r = 200 ->
  (json_body r = None -> out = Raises JSONDecodeError) /\
  (forall l, json_body r = Some (JArr l) ->
     out = if existsb (fun x => json_eq_str x "commandResult") l
           then Raises TypeError else Returns (JStr "")) /\
  (forall t, json_body r = Some (JStr t) ->
     out = if contains "commandResult" t
           then Raises TypeError else Returns (JStr "")) /\
  (forall j, json_body r = Some j ->
     match j with JNull | JBool _ | JNum _ => True | _ => False end ->
     out = Raises TypeError).
Proof.
  intros HG Hpath r out H2. subst out.
  destruct (task_result E obj s) as [out s'] eqn:Hrun.
  unfold task_result in Hrun. pass_guard HG s s1 Hrun.
  unfold bind at 1 in Hrun. unfold get_self at 1 in Hrun.
  unfold bind at 1 in Hrun. unfold lift_path at 1 in Hrun.
  rewrite Hpath in Hrun. unfold ret at 1 in Hrun. send Hrun.
  rewrite Hlog, nth_response_0 in Hrun. fold r in Hrun.
  rewrite H2 in Hrun. cbn [Z.eqb Pos.eqb negb fst] in Hrun |- *.
  unfold json_field, response_json, bind, json_contains, subscript, ret,
    raise in Hrun.
  repeat split.
  - intros Hb. rewrite Hb in Hrun. congruence.
  - intros l Hb. rewrite Hb in Hrun.
    destruct (existsb (fun x => json_eq_str x "commandResult") l);
      congruence.
  - intros t Hb. rewrite Hb in Hrun.
    destruct (contains "commandResult" t); congruence.
  - intros j Hb Hj. rewrite Hb in Hrun.
    destruct j; try done; congruence.
Qed.

Lemma task_result_other_bodies_witness :
  let E := Demo.env (Demo.script
             [mkResponse 200 "[]" (Some (JArr []))]) in
  guard_transparent E /\
  _get_path E Demo.task42 = inr "/mgmt/tm/task/42" /\
  status_code (nth_response E (Demo.fresh true) 0) = 200 /\
  fst (task_result E Demo.task42 (Demo.fresh true)) = Returns (JStr "").
Proof.
  cbv zeta. split; [apply Demo_guard_transparent |].
  split; [vm_compute; reflexivity |]. split; [reflexivity |].
  destruct (task_result_other_bodies
              (Demo.env (Demo.script
                 [mkResponse 200 "[]" (Some (JArr []))]))
              Demo.task42 "/mgmt/tm/task/42" (Demo.fresh true)
              (Demo_guard_transparent _) eq_refl eq_refl)
    as (_ & Harr & _).
  apply (Harr [] eq_refl).
Defined.
